(** * mcp-server-nextgen: the retrieval-and-dispatch core of [server.py]

    A shallow embedding of [src/mcp_server_nextgen/server.py].  Python
    values are an inductive type, exceptions an error monad, the module's
    two global dictionaries an explicit state, and everything outside the
    module (the OAuth endpoint, the REST API, the MCP session, the CSV
    file, the [json] codec) an [environment] of oracles indexed by the
    history of calls made so far.  The [while True] loop of
    [retrieve_entities] is run with fuel. *)

From Stdlib Require Import String Ascii List ZArith Bool Lia DecimalString.
Import ListNotations.
Open Scope list_scope.
Open Scope string_scope.
Set Warnings "-register-all".

(** ** Python values, as [response.json()] and the MCP layer deliver them *)

Module Py.

(** The double-quote character and the control characters used below. *)
Definition dq : ascii := ascii_of_nat 34.
Definition sq : ascii := ascii_of_nat 39.
Definition bsl : ascii := ascii_of_nat 92.
Definition lf : ascii := ascii_of_nat 10.
Definition cr : ascii := ascii_of_nat 13.
Definition tab : ascii := ascii_of_nat 9.
Definition str1 (c : ascii) : string := String c EmptyString.

(** JSON numbers are modelled as integers: a response holding a number
    with a fraction or an exponent is outside this model. *)
Inductive pyval : Type :=
| PNone
| PBool (b : bool)
| PInt (z : Z)
| PStr (s : string)
| PList (l : list pyval)
| PDict (d : list (string * pyval)).

(** A [dict] with string keys, in insertion order; the binding a lookup
    finds is the first one for the key. *)
Definition pydict := list (string * pyval).

(** An exception instance: its class and [str(e)]. *)
Record exn : Type := Exn { exn_class : string; exn_msg : string }.

Inductive result (A : Type) : Type :=
| Return (a : A)
| Raise (e : exn).
Arguments Return {A} a.
Arguments Raise {A} e.

Definition bind {A B} (r : result A) (k : A -> result B) : result B :=
  match r with
  | Return a => k a
  | Raise e => Raise e
  end.

Notation "x <- r ;; k" := (bind r (fun x => k))
  (at level 61, r at next level, right associativity).
Notation "' p <- r ;; k" := (bind r (fun x => let p := x in k))
  (at level 61, p pattern, r at next level, right associativity).

Definition ValueError (msg : string) : exn := Exn "ValueError" msg.
Definition TypeError (msg : string) : exn := Exn "TypeError" msg.

Definition type_name (v : pyval) : string :=
  match v with
  | PNone => "NoneType"
  | PBool _ => "bool"
  | PInt _ => "int"
  | PStr _ => "str"
  | PList _ => "list"
  | PDict _ => "dict"
  end.

Definition AttributeError (v : pyval) (attr : string) : exn :=
  Exn "AttributeError"
      ("'" ++ type_name v ++ "' object has no attribute '" ++ attr ++ "'").

(** [bool(v)], the test behind [if v], [not v] and [a or b]. *)
Definition truthy (v : pyval) : bool :=
  match v with
  | PNone => false
  | PBool b => b
  | PInt z => negb (Z.eqb z 0)
  | PStr s => negb (String.eqb s "")
  | PList l => match l with [] => false | _ => true end
  | PDict d => match d with [] => false | _ => true end
  end.

(** [a or b] on already evaluated operands; where the right operand can
    raise, the short circuit is written out at the call site. *)
Definition py_or (a b : pyval) : pyval := if truthy a then a else b.

Fixpoint assoc (k : string) (d : pydict) : option pyval :=
  match d with
  | [] => None
  | (k', v) :: d' => if String.eqb k k' then Some v else assoc k d'
  end.

Definition has_key (k : string) (d : pydict) : bool :=
  match assoc k d with Some _ => true | None => false end.

Definition dict_get (d : pydict) (k : string) (default : pyval) : pyval :=
  match assoc k d with
  | Some v => v
  | None => default
  end.

(** [recv.get(k, default)]: only a [dict] has the method. *)
Definition py_get (recv : pyval) (k : string) (default : pyval) : result pyval :=
  match recv with
  | PDict d => Return (dict_get d k default)
  | _ => Raise (AttributeError recv "get")
  end.

(** The items a [for] loop draws from [v]: the elements of a list, the
    keys of a dict, the characters of a string (one byte each here). *)
Fixpoint chars (s : string) : list pyval :=
  match s with
  | EmptyString => []
  | String c s' => PStr (str1 c) :: chars s'
  end.

Definition py_iter (v : pyval) : result (list pyval) :=
  match v with
  | PList l => Return l
  | PDict d => Return (map (fun kv => PStr (fst kv)) d)
  | PStr s => Return (chars s)
  | _ => Raise (TypeError ("'" ++ type_name v ++ "' object is not iterable"))
  end.

(** *** [repr] and [str] *)

Definition hex_digit (n : nat) : ascii :=
  ascii_of_nat (if Nat.ltb n 10 then 48 + n else 87 + n).

Definition escape_char (quote : ascii) (c : ascii) : string :=
  let n := nat_of_ascii c in
  if Ascii.eqb c bsl then String bsl (str1 bsl)
  else if Ascii.eqb c quote then String bsl (str1 quote)
  else if Ascii.eqb c lf then String bsl "n"
  else if Ascii.eqb c cr then String bsl "r"
  else if Ascii.eqb c tab then String bsl "t"
  else if Nat.ltb n 32 || Nat.eqb n 127
       then String bsl (String "x" (String (hex_digit (n / 16)) (str1 (hex_digit (n mod 16)))))
  else str1 c.

Fixpoint contains_char (c : ascii) (s : string) : bool :=
  match s with
  | EmptyString => false
  | String c' s' => Ascii.eqb c c' || contains_char c s'
  end.

Fixpoint escape (quote : ascii) (s : string) : string :=
  match s with
  | EmptyString => EmptyString
  | String c s' => escape_char quote c ++ escape quote s'
  end.

(** [repr(s)] for a [str]: single quotes unless the string holds a single
    quote and no double quote.  Bytes above 127 are kept as they are. *)
Definition repr_str (s : string) : string :=
  let quote := if contains_char sq s && negb (contains_char dq s) then dq else sq in
  String quote (escape quote s ++ str1 quote).

Definition str_of_Z (z : Z) : string := NilZero.string_of_int (Z.to_int z).
Definition str_of_nat (n : nat) : string := NilZero.string_of_uint (Nat.to_uint n).

Fixpoint py_repr (v : pyval) : string :=
  match v with
  | PNone => "None"
  | PBool true => "True"
  | PBool false => "False"
  | PInt z => str_of_Z z
  | PStr s => repr_str s
  | PList l => "[" ++ String.concat ", " (map py_repr l) ++ "]"
  | PDict d =>
      "{" ++ String.concat ", "
               (map (fun kv => match kv with
                               | (k, x) => repr_str k ++ ": " ++ py_repr x
                               end) d) ++ "}"
  end.

(** [str(v)], which is what an f-string placeholder inserts. *)
Definition py_str (v : pyval) : string :=
  match v with
  | PStr s => s
  | _ => py_repr v
  end.

Definition KeyError (k : string) : exn := Exn "KeyError" (repr_str k).

(** [d[k]] on a dict with string keys. *)
Definition dict_item (d : pydict) (k : string) : result pyval :=
  match assoc k d with
  | Some v => Return v
  | None => Raise (KeyError k)
  end.

(** *** String methods *)

(** [str.isspace] on one ASCII character. *)
Definition is_space (c : ascii) : bool :=
  let n := nat_of_ascii c in
  (Nat.leb 9 n && Nat.leb n 13) || (Nat.leb 28 n && Nat.leb n 32).

Fixpoint lstrip_space (s : string) : string :=
  match s with
  | EmptyString => EmptyString
  | String c s' => if is_space c then lstrip_space s' else s
  end.

Fixpoint rstrip_space (s : string) : string :=
  match s with
  | EmptyString => EmptyString
  | String c s' =>
      match rstrip_space s' with
      | EmptyString => if is_space c then EmptyString else str1 c
      | r => String c r
      end
  end.

Definition strip (s : string) : string := rstrip_space (lstrip_space s).

(** [s.lstrip(c)] for a single character [c]. *)
Fixpoint lstrip_char (c : ascii) (s : string) : string :=
  match s with
  | EmptyString => EmptyString
  | String c' s' => if Ascii.eqb c c' then lstrip_char c s' else s
  end.

(** [s.split(c)] for a single-character separator: never empty. *)
Fixpoint split (c : ascii) (s : string) : list string :=
  match s with
  | EmptyString => [EmptyString]
  | String c' s' =>
      if Ascii.eqb c c' then EmptyString :: split c s'
      else match split c s' with
           | [] => [str1 c']
           | w :: ws => String c' w :: ws
           end
  end.

Definition startswith (s p : string) : bool := String.prefix p s.

(** *** [int(x)] *)

Definition is_digit (c : ascii) : bool :=
  let n := nat_of_ascii c in Nat.leb 48 n && Nat.leb n 57.

(** Decimal digits, with single underscores allowed between digits. *)
Fixpoint digits_value (acc : Z) (after_digit : bool) (s : string) : option Z :=
  match s with
  | EmptyString => if after_digit then Some acc else None
  | String c s' =>
      if is_digit c
      then digits_value (10 * acc + Z.of_nat (nat_of_ascii c - 48)) true s'
      else if Ascii.eqb c "_"
           then (if after_digit then digits_value acc false s' else None)
           else None
  end.

(** The integer a string denotes for [int(s)], if any: surrounding
    whitespace, an optional sign, ASCII digits. *)
Definition int_of_str (s : string) : option Z :=
  match strip s with
  | String "-" s' => option_map Z.opp (digits_value 0 false s')
  | String "+" s' => digits_value 0 false s'
  | s' => digits_value 0 false s'
  end.

Definition py_int (v : pyval) : result Z :=
  match v with
  | PInt z => Return z
  | PBool b => Return (if b then 1 else 0)%Z
  | PStr s =>
      match int_of_str s with
      | Some z => Return z
      | None => Raise (ValueError ("invalid literal for int() with base 10: " ++ repr_str s))
      end
  | _ => Raise (TypeError ("int() argument must be a string, a bytes-like object or a real number, not '"
                           ++ type_name v ++ "'"))
  end.

(** Method call [v.split(c)] and [v.strip()] on a value that may not be a
    string. *)
Definition py_split (v : pyval) (c : ascii) : result (list string) :=
  match v with
  | PStr s => Return (split c s)
  | _ => Raise (AttributeError v "split")
  end.

(** *** Dictionaries with arbitrary hashable keys *)

(** The module's stores are dicts keyed by whatever the remote API sends
    as [id].  Keys are compared as Python compares them: strings by
    content, [True] and [1] (and [False] and [0]) as the same key. *)
Definition pystore := list (pyval * pyval).

Definition key_eqb (a b : pyval) : bool :=
  match a, b with
  | PNone, PNone => true
  | PStr s, PStr t => String.eqb s t
  | PInt x, PInt y => Z.eqb x y
  | PBool x, PBool y => Bool.eqb x y
  | PInt x, PBool y => Z.eqb x (if y then 1 else 0)
  | PBool x, PInt y => Z.eqb (if x then 1 else 0) y
  | _, _ => false
  end.

Definition hashable (k : pyval) : bool :=
  match k with
  | PList _ | PDict _ => false
  | _ => true
  end.

Fixpoint store_get (k : pyval) (s : pystore) : option pyval :=
  match s with
  | [] => None
  | (k', v) :: s' => if key_eqb k k' then Some v else store_get k s'
  end.

Definition store_mem (k : pyval) (s : pystore) : bool :=
  match store_get k s with Some _ => true | None => false end.

(** [s[k] = v] on hashable [k]: an existing key keeps its place (and the
    key object first inserted), a new key goes last. *)
Fixpoint store_put (k v : pyval) (s : pystore) : pystore :=
  match s with
  | [] => [(k, v)]
  | (k', v') :: s' =>
      if key_eqb k k' then (k', v) :: s' else (k', v') :: store_put k v s'
  end.

Definition store_set (k v : pyval) (s : pystore) : result pystore :=
  if hashable k then Return (store_put k v s)
  else Raise (TypeError ("unhashable type: '" ++ type_name k ++ "'")).

(** [sep.join(parts)]: every part must be a [str]. *)
Fixpoint join_parts (i : nat) (parts : list pyval) : result (list string) :=
  match parts with
  | [] => Return []
  | PStr s :: rest => ss <- join_parts (S i) rest ;; Return (s :: ss)
  | v :: _ =>
      Raise (TypeError ("sequence item " ++ str_of_nat i ++ ": expected str instance, "
                        ++ type_name v ++ " found"))
  end.

Definition py_join (sep : string) (parts : list pyval) : result string :=
  ss <- join_parts 0 parts ;; Return (String.concat sep ss).

End Py.
Import Py.

(** ** Library calls the module makes on plain data *)

Module Lib.

(** *** [base64.b64encode] *)

Definition b64_alphabet : string :=
  "ABCDEFGHIJKLMNOPQRSTUVWXYZabcdefghijklmnopqrstuvwxyz0123456789+/".

Definition b64_char (n : nat) : ascii :=
  match String.get n b64_alphabet with
  | Some c => c
  | None => "="%char
  end.

Fixpoint b64_groups (bytes : list nat) : string :=
  match bytes with
  | [] => EmptyString
  | [a] =>
      String (b64_char (a / 4)) (String (b64_char ((a mod 4) * 16)) "==")
  | [a; b] =>
      String (b64_char (a / 4))
        (String (b64_char ((a mod 4) * 16 + b / 16))
           (String (b64_char ((b mod 16) * 4)) "="))
  | a :: b :: c :: rest =>
      String (b64_char (a / 4))
        (String (b64_char ((a mod 4) * 16 + b / 16))
           (String (b64_char ((b mod 16) * 4 + c / 64))
              (String (b64_char (c mod 64)) (b64_groups rest))))
  end.

(** Strings are byte strings here, so [s.encode("utf-8")] and the final
    [.decode("utf-8")] are the identity. *)
Definition b64encode (s : string) : string :=
  b64_groups (map nat_of_ascii (list_ascii_of_string s)).

(** *** [xml.etree.ElementTree] *)

Inductive Element : Type :=
| Elem (tag : string) (attrib : list (string * pyval)) (children : list Element).

Fixpoint replace_chars (table : ascii -> option string) (s : string) : string :=
  match s with
  | EmptyString => EmptyString
  | String c s' =>
      match table c with
      | Some r => r ++ replace_chars table s'
      | None => String c (replace_chars table s')
      end
  end.

Definition attrib_entity (c : ascii) : option string :=
  if Ascii.eqb c "&" then Some "&amp;"
  else if Ascii.eqb c "<" then Some "&lt;"
  else if Ascii.eqb c ">" then Some "&gt;"
  else if Ascii.eqb c dq then Some "&quot;"
  else if Ascii.eqb c cr then Some "&#13;"
  else if Ascii.eqb c lf then Some "&#10;"
  else if Ascii.eqb c tab then Some "&#09;"
  else None.

Definition special_strings : list string :=
  ["&"; "<"; ">"; str1 dq; str1 cr; str1 lf; str1 tab].

Definition is_special (v : pyval) : bool :=
  match v with
  | PStr s => existsb (String.eqb s) special_strings
  | _ => false
  end.

Definition serialization_error (v : pyval) : exn :=
  TypeError ("cannot serialize " ++ py_repr v ++ " (type " ++ type_name v ++ ")").

(** [_escape_attrib]: the membership tests [c in text] followed by
    [text.replace].  On a string the seven characters are replaced; a
    value without [in] fails; a list or dict passes through unless one of
    the seven strings is a member, and is then formatted by [%s]. *)
Definition escape_attrib (v : pyval) : result string :=
  match v with
  | PStr s => Return (replace_chars attrib_entity s)
  | PList l =>
      if existsb is_special l then Raise (serialization_error v)
      else Return (py_str v)
  | PDict d =>
      if existsb (fun kv => is_special (PStr (fst kv))) d
      then Raise (serialization_error v)
      else Return (py_str v)
  | _ => Raise (serialization_error v)
  end.

Fixpoint serialize_attribs (attrib : list (string * pyval)) : result string :=
  match attrib with
  | [] => Return EmptyString
  | (k, v) :: rest =>
      ev <- escape_attrib v ;;
      tail <- serialize_attribs rest ;;
      Return (" " ++ k ++ "=" ++ str1 dq ++ ev ++ str1 dq ++ tail)
  end.

(** [ET.tostring(elem, encoding="unicode")] for elements without text. *)
Fixpoint tostring (e : Element) : result string :=
  match e with
  | Elem tag attrib children =>
      attrs <- serialize_attribs attrib ;;
      match children with
      | [] => Return ("<" ++ tag ++ attrs ++ " />")
      | _ =>
          inner <- (fix all (cs : list Element) : result string :=
                      match cs with
                      | [] => Return EmptyString
                      | c :: cs' => x <- tostring c ;; y <- all cs' ;; Return (x ++ y)
                      end) children ;;
          Return ("<" ++ tag ++ attrs ++ ">" ++ inner ++ "</" ++ tag ++ ">")
      end
  end.

(** *** [mcp.types] *)

Record TextContent : Type := { type_ : string; text : string }.

Record Tool : Type :=
  { name : string; description : option string; inputSchema : pydict }.

Definition ValidationError (field : string) : exn :=
  Exn "ValidationError" ("1 validation error for Tool" ++ str1 lf ++ field).

(** [types.Tool(name=..., description=..., inputSchema=...)]: the model
    validates [name: str], [description: str | None],
    [inputSchema: dict]. *)
Definition Tool_init (name_v description_v schema_v : pyval) : result Tool :=
  match name_v with
  | PStr n =>
      match description_v with
      | PStr d =>
          match schema_v with
          | PDict s => Return {| name := n; description := Some d; inputSchema := s |}
          | _ => Raise (ValidationError "inputSchema")
          end
      | PNone =>
          match schema_v with
          | PDict s => Return {| name := n; description := None; inputSchema := s |}
          | _ => Raise (ValidationError "inputSchema")
          end
      | _ => Raise (ValidationError "description")
      end
  | _ => Raise (ValidationError "name")
  end.

(** [pydantic.AnyUrl], as far as [handle_read_resource] reads it. *)
Record AnyUrl : Type := { scheme : string; path : option string }.

End Lib.
Import Lib.

(** ** The world outside the module *)

(** A request as [async_request] sends it: the [Authorization] header is
    [Bearer <token>]; [params] and [json] are the keyword arguments, when
    given. *)
Record request : Type :=
  { req_method : string;
    req_url : string;
    req_token : string;
    req_params : option pydict;
    req_json : option pyval }.

(** What the module has asked of the outside so far, oldest first. *)
Inductive event : Type :=
| EvToken
| EvRequest (r : request)
| EvNotify.

(** [server.request_context and server.request_context.session] followed
    by [await session.send_resource_list_changed()]. *)
Inductive session_outcome : Type :=
| NoContext (e : exn)
| NoSession
| Session (sent : result unit).

(** Each oracle answers from the history before the call.  [respond]
    covers [raise_for_status] and [response.json()]: a non-2xx status, a
    transport failure and an unparsable body are all [Raise].  [csv_rows]
    is what [csv.DictReader] yields for a path, or the failure of [open];
    the extra [None] key of an over-long row, which the module never
    reads, is left out. *)
Record environment : Type :=
  { BASE_URL : option string;
    fetch_token : list event -> result string;
    respond : list event -> request -> result pyval;
    session : list event -> session_outcome;
    csv_rows : string -> result (list pydict);
    json_loads : string -> result pyval;
    json_dumps : bool -> pyval -> string }.

Definition fmt_opt (s : option string) : string :=
  match s with
  | Some x => x
  | None => "None"
  end.

Definition AUTOMATIONFLOW_URL (env : environment) : string :=
  fmt_opt (BASE_URL env) ++ "/automation-flows".
Definition ACTIVITYLOG_URL (env : environment) : string :=
  fmt_opt (BASE_URL env) ++ "/automation-flows/executions".
Definition DIGITALWORKER_URL (env : environment) : string :=
  fmt_opt (BASE_URL env) ++ "/digital-workers".
Definition SESSION_URL (env : environment) : string :=
  fmt_opt (BASE_URL env) ++ "/sessions".

(** ** In-memory data stores *)

Inductive kind : Type :=
| automationflows
| activitylogs
| digitalworkers
| sessions
| workqueues.

Definition kind_name (k : kind) : string :=
  match k with
  | automationflows => "automationflows"
  | activitylogs => "activitylogs"
  | digitalworkers => "digitalworkers"
  | sessions => "sessions"
  | workqueues => "workqueues"
  end.

Definition kind_eqb (a b : kind) : bool :=
  match a, b with
  | automationflows, automationflows
  | activitylogs, activitylogs
  | digitalworkers, digitalworkers
  | sessions, sessions
  | workqueues, workqueues => true
  | _, _ => false
  end.

(** The two module-level dictionaries and the history of outside calls. *)
Record state : Type :=
  { internal_resources : kind -> pystore;
    resources : kind -> pystore;
    history : list event }.

Definition upd (f : kind -> pystore) (k : kind) (s : pystore) : kind -> pystore :=
  fun k' => if kind_eqb k k' then s else f k'.

Definition set_internal (k : kind) (s : pystore) (st : state) : state :=
  {| internal_resources := upd (internal_resources st) k s;
     resources := resources st;
     history := history st |}.

Definition set_resources (k : kind) (s : pystore) (st : state) : state :=
  {| internal_resources := internal_resources st;
     resources := upd (resources st) k s;
     history := history st |}.

Definition record (e : event) (st : state) : state :=
  {| internal_resources := internal_resources st;
     resources := resources st;
     history := (history st ++ [e])%list |}.

Definition initial_state : state :=
  {| internal_resources := fun _ => [];
     resources := fun _ => [];
     history := [] |}.

(** ** OAuth and HTTP utilities *)

Definition get_access_token (env : environment) (st : state) : state * result string :=
  (record EvToken st, fetch_token env (history st)).

Definition async_request (env : environment) (r : request) (st : state)
  : state * result pyval :=
  (record (EvRequest r) st, respond env (history st) r).

Definition GET (url token : string) (params : pydict) : request :=
  {| req_method := "GET"; req_url := url; req_token := token;
     req_params := Some params; req_json := None |}.

Definition send_resource_list_changed (env : environment) (st : state)
  : state * result unit :=
  match session env (history st) with
  | NoContext e => (st, Raise e)
  | NoSession => (st, Return tt)
  | Session sent => (record EvNotify st, sent)
  end.

(** ** Entity retrieval *)

(** [response.get("items") or response.get("value", [])] *)
Definition page_items (response : pyval) : result pyval :=
  a <- py_get response "items" PNone ;;
  if truthy a then Return a else py_get response "value" (PList []).

(** The body of [for item in items], for one item. *)
Definition merge_item (item : pyval) (store : pystore) : result pystore :=
  entity <- py_get item "entity" item ;;
  entity_id <- py_get entity "id" PNone ;;
  if truthy entity_id then store_set entity_id entity store else Return store.

(** The [for] loop: the store keeps what was written before an
    exception. *)
Fixpoint merge_items (items : list pyval) (store : pystore) : pystore * option exn :=
  match items with
  | [] => (store, None)
  | item :: rest =>
      match merge_item item store with
      | Return store' => merge_items rest store'
      | Raise e => (store, Some e)
      end
  end.

(** [response.get("nextPageToken") or response.get("@odata.nextLink")] *)
Definition next_page_token (response : pyval) : result pyval :=
  a <- py_get response "nextPageToken" PNone ;;
  if truthy a then Return a else py_get response "@odata.nextLink" PNone.

(** The [if next_token:] statement: the next [url] and [params], or
    [None] for [break]. *)
Definition advance (url : string) (next_token : pyval) : option (string * pydict) :=
  if truthy next_token then
    match next_token with
    | PStr s =>
        if startswith s "http" then Some (s, [])
        else Some (url, [("pagetoken", next_token)])
    | _ => Some (url, [("pagetoken", next_token)])
    end
  else None.

(** One pass through the [while True] body after the response arrived:
    the store afterwards, and how the pass ended. *)
Inductive pass_end : Type :=
| Continue (url : string) (params : pydict)
| Break
| Caught (e : exn).

Definition process_page (response : pyval) (url : string) (store : pystore)
  : pystore * pass_end :=
  match page_items response with
  | Raise e => (store, Caught e)
  | Return items =>
      match py_iter items with
      | Raise e => (store, Caught e)
      | Return l =>
          match merge_items l store with
          | (store', Some e) => (store', Caught e)
          | (store', None) =>
              match next_page_token response with
              | Raise e => (store', Caught e)
              | Return t =>
                  match advance url t with
                  | Some (url', params') => (store', Continue url' params')
                  | None => (store', Break)
                  end
              end
          end
      end
  end.

(** The [while True] loop inside [try], run for at most [fuel] passes:
    the state reached, and whether the function has returned.  Both the
    normal exit and the [except] clause return the store. *)
Fixpoint retrieve_loop (fuel : nat) (env : environment) (token : string) (key : kind)
    (url : string) (params : pydict) (st : state) : state * bool :=
  match fuel with
  | O => (st, false)
  | S fuel' =>
      match async_request env (GET url token params) st with
      | (st1, Raise _) => (st1, true)
      | (st1, Return response) =>
          match process_page response url (internal_resources st1 key) with
          | (store', Continue url' params') =>
              retrieve_loop fuel' env token key url' params' (set_internal key store' st1)
          | (store', _) => (set_internal key store' st1, true)
          end
      end
  end.

Definition walker_params (args : pydict) : pydict :=
  if has_key "environment" args
  then [("environmentId.eq", dict_get args "environment" PNone)]
  else [].

(** [retrieve_entities(token, url, key, args)].  The dict it returns is
    the store object [internal_resources[key]] itself, so the result is
    read back from the state.  [None] means the loop is still running
    after [fuel] passes. *)
Definition retrieve_entities (fuel : nat) (env : environment) (token url : string)
    (key : kind) (args : pydict) (st : state) : option (state * pystore) :=
  match retrieve_loop fuel env token key url (walker_params args)
          (set_internal key [] st) with
  | (st', true) => Some (st', internal_resources st' key)
  | (_, false) => None
  end.

(** ** Helper functions *)

Definition field_element (name_value : string * pyval) : Element :=
  Elem "field"
       [("name", PStr (fst name_value)); ("type", PStr "text"); ("value", snd name_value)]
       [].

(** [create_collection_xml(fields)] *)
Definition create_collection_xml (fields : pydict) : result string :=
  let row := Elem "row" [] (map field_element fields) in
  let collection := Elem "collection" [] [row] in
  xml_str <- tostring collection ;;
  Return (b64encode xml_str).

Definition py_json_loads (env : environment) (v : pyval) : result pyval :=
  match v with
  | PStr s => json_loads env s
  | _ => Raise (TypeError ("the JSON object must be str, bytes or bytearray, not "
                           ++ type_name v))
  end.

(** The [types.Tool(...)] expression of the loop body. *)
Definition row_tool (env : environment) (row : pydict) : result Tool :=
  name_v <- dict_item row "name" ;;
  description_v <- dict_item row "description" ;;
  schema_s <- dict_item row "inputSchema" ;;
  schema_v <- py_json_loads env schema_s ;;
  Tool_init name_v description_v schema_v.

(** The [for row in reader] loop: [tools] and the work-queue lookup as the
    loop leaves them, whether it ran to the end or an exception ended
    it. *)
Fixpoint load_rows (env : environment) (rows : list pydict)
    (tools : list Tool) (lookup : pystore) : list Tool * pystore :=
  match rows with
  | [] => (tools, lookup)
  | row :: rest =>
      match row_tool env row with
      | Raise _ => (tools, lookup)
      | Return tool =>
          let tools' := (tools ++ [tool])%list in
          match (name_v <- dict_item row "name" ;; store_set name_v (PDict row) lookup) with
          | Raise _ => (tools', lookup)
          | Return lookup' => load_rows env rest tools' lookup'
          end
      end
  end.

(** [load_tools_from_csv(filepath)] *)
Definition load_tools_from_csv (env : environment) (filepath : string) (st : state)
  : state * list Tool :=
  match csv_rows env filepath with
  | Raise _ => (st, [])
  | Return rows =>
      match load_rows env rows [] (internal_resources st workqueues) with
      | (tools, lookup) => (set_internal workqueues lookup st, tools)
      end
  end.

Fixpoint get_fields (val : pyval) (fields : list string) : result (list pyval) :=
  match fields with
  | [] => Return []
  | field :: rest =>
      x <- py_get val field (PStr "") ;;
      xs <- get_fields val rest ;;
      Return (x :: xs)
  end.

Fixpoint format_rows (store : pystore) (fields : list string) : result (list string) :=
  match store with
  | [] => Return []
  | (key, val) :: rest =>
      row <- get_fields val fields ;;
      line <- py_join "|" (key :: row) ;;
      lines <- format_rows rest fields ;;
      Return (line :: lines)
  end.

(** [format_resource_result(store, fields)] *)
Definition format_resource_result (store : pystore) (fields : list string) : result string :=
  rows <- format_rows store fields ;;
  Return (String.concat (str1 lf) rows).

(** ** MCP handlers *)

Definition scheme_to_url (env : environment) : list (string * string) :=
  [("automationflows", AUTOMATIONFLOW_URL env);
   ("activitylogs", ACTIVITYLOG_URL env);
   ("digitalworkers", DIGITALWORKER_URL env);
   ("sessions", SESSION_URL env);
   ("automationflow", AUTOMATIONFLOW_URL env);
   ("activitylog", ACTIVITYLOG_URL env);
   ("digitalworker", DIGITALWORKER_URL env);
   ("session", SESSION_URL env)].

Fixpoint lookup_str {A} (k : string) (l : list (string * A)) : option A :=
  match l with
  | [] => None
  | (k', v) :: l' => if String.eqb k k' then Some v else lookup_str k l'
  end.

(** The url of the detail request (lines 227-231). *)
Definition detail_url (base : string) (uri : AnyUrl) (p : string) : string :=
  let resource_id := lstrip_char "/" p in
  let url := base ++ "/" ++ resource_id in
  if String.eqb (scheme uri) "activitylog" || String.eqb (scheme uri) "activitylogs"
  then url ++ "/logs" else url.

Definition detail_request (url token : string) : request :=
  {| req_method := "GET"; req_url := url; req_token := token;
     req_params := None; req_json := None |}.

(** [handle_read_resource(uri)] *)
Definition handle_read_resource (env : environment) (uri : AnyUrl) (st : state)
  : state * result string :=
  match lookup_str (scheme uri) (scheme_to_url env) with
  | None => (st, Raise (ValueError ("Unsupported URI scheme: " ++ scheme uri)))
  | Some base =>
      match path uri with
      | None => (st, Raise (AttributeError PNone "lstrip"))
      | Some p =>
          match get_access_token env st with
          | (st1, Raise e) => (st1, Raise e)
          | (st1, Return token) =>
              match async_request env (detail_request (detail_url base uri p) token) st1 with
              | (st2, Return detail) => (st2, Return (json_dumps env false detail))
              | (st2, Raise e) =>
                  (st2, Return (json_dumps env true (PDict [("error", PStr (exn_msg e))])))
              end
          end
      end
  end.

(** [v[k]] for a string subscript. *)
Definition py_item (v : pyval) (k : string) : result pyval :=
  match v with
  | PDict d => dict_item d k
  | PStr _ => Raise (TypeError "string indices must be integers, not 'str'")
  | PList _ => Raise (TypeError "list indices must be integers or slices, not str")
  | _ => Raise (TypeError ("'" ++ type_name v ++ "' object is not subscriptable"))
  end.

Definition text_content (s : string) : list TextContent :=
  [{| type_ := "text"; text := s |}].

Definition tags_list (v : pyval) : result pyval :=
  parts <- py_split v "," ;;
  Return (PList (map (fun tag => PStr (strip tag)) parts)).

(** The dict bound to the local [json] and logged (lines 401-408): it
    differs from the one sent in how an empty [tags] is read. *)
Definition logged_payload (config : pyval) (arguments : pydict) : result pyval :=
  keyValue <- py_get config "keyValue" (PStr "Key0001") ;;
  p <- py_get config "priority" PNone ;;
  priority <- py_int (py_or p (PStr "100")) ;;
  status <- py_get config "status" (PStr "Added by MCP Server") ;;
  t <- py_get config "tags" (PStr "tag1") ;;
  tags <- tags_list t ;;
  data <- create_collection_xml arguments ;;
  Return (PDict [("keyValue", keyValue); ("priority", PInt priority);
                 ("deferredUntil", PNone); ("status", status);
                 ("tags", tags); ("data", PStr data)]).

(** The dict passed as [json=] to [async_request] (lines 415-422). *)
Definition sent_payload (config : pyval) (arguments : pydict) : result pyval :=
  keyValue <- py_get config "keyValue" (PStr "Key0001") ;;
  p <- py_get config "priority" PNone ;;
  priority <- py_int (py_or p (PStr "100")) ;;
  status <- py_get config "status" (PStr "Added by MCP Server") ;;
  t <- py_get config "tags" PNone ;;
  tags <- tags_list (py_or t (PStr "tag1")) ;;
  data <- create_collection_xml arguments ;;
  Return (PDict [("keyValue", keyValue); ("priority", PInt priority);
                 ("deferredUntil", PNone); ("status", status);
                 ("tags", tags); ("data", PStr data)]).

Definition POST (url token : string) (body : option pyval) : request :=
  {| req_method := "POST"; req_url := url; req_token := token;
     req_params := None; req_json := body |}.

Definition is_empty (arguments : option pydict) : bool :=
  match arguments with
  | None | Some [] => true
  | Some _ => false
  end.

(** [token = get_access_token()] followed by the [if not token] check. *)
Definition acquire_token (env : environment) (st : state) : state * result string :=
  match get_access_token env st with
  | (st1, Return token) =>
      if String.eqb token "" then (st1, Raise (ValueError "Invalid Client ID or Secret"))
      else (st1, Return token)
  | (st1, Raise e) => (st1, Raise e)
  end.

(** The [try] body of the work-queue branch. *)
Definition submit_work_item (env : environment) (tool : string)
    (arguments : option pydict) (st : state) : state * result string :=
  match arguments with
  | None | Some [] => (st, Raise (ValueError "Missing arguments"))
  | Some args =>
      match acquire_token env st with
      | (st1, Raise e) => (st1, Raise e)
      | (st1, Return token) =>
          match (match store_get (PStr tool) (internal_resources st1 workqueues) with
                 | None => Raise (KeyError tool)
                 | Some config =>
                     queue_id <- py_item config "workqueueid" ;;
                     _ <- logged_payload config args ;;
                     body <- sent_payload config args ;;
                     Return (fmt_opt (BASE_URL env) ++ "/work-queues/"
                             ++ py_str queue_id ++ "/items", body)
                 end) with
          | Raise e => (st1, Raise e)
          | Return (workqueue_url, body) =>
              match async_request env (POST workqueue_url token (Some body)) st1 with
              | (st2, Raise e) => (st2, Raise e)
              | (st2, Return result) =>
                  (st2, item_id <- py_get result "itemId" PNone ;;
                        Return ("Work queue item created: " ++ py_str item_id))
              end
          end
      end
  end.

(** The [try] body of the start-flow branch. *)
Definition start_automation_flow (env : environment)
    (arguments : option pydict) (st : state) : state * result string :=
  match arguments with
  | None | Some [] => (st, Raise (ValueError "Missing arguments"))
  | Some args =>
      match acquire_token env st with
      | (st1, Raise e) => (st1, Raise e)
      | (st1, Return token) =>
          match dict_item args "automation_flow_id" with
          | Raise e => (st1, Raise e)
          | Return flow_id =>
              match async_request env
                      (POST (AUTOMATIONFLOW_URL env ++ "/" ++ py_str flow_id ++ "/executions")
                            token None) st1 with
              | (st2, Raise e) => (st2, Raise e)
              | (st2, Return result) =>
                  match py_get result "id" (PStr "") with
                  | Raise e => (st2, Raise e)
                  | Return exec_id =>
                      if truthy exec_id then
                        match store_set exec_id (PDict [("id", exec_id)])
                                (resources st2 activitylogs) with
                        | Raise e => (st2, Raise e)
                        | Return logs =>
                            match send_resource_list_changed env
                                    (set_resources activitylogs logs st2) with
                            | (st3, Raise e) => (st3, Raise e)
                            | (st3, Return _) =>
                                (st3, Return ("Started automation flow: " ++ py_str exec_id))
                            end
                        end
                      else (st2, Raise (ValueError "Execution ID not returned"))
                  end
              end
          end
      end
  end.

(** The table of the retrieve branch: endpoint, kind, projected fields. *)
Definition mapping (env : environment) : list (string * (string * kind * list string)) :=
  [("retrieve-automation-flow-list",
      (AUTOMATIONFLOW_URL env, automationflows, ["name"; "description"]));
   ("retrieve-activity-log-list",
      (ACTIVITYLOG_URL env, activitylogs, ["status"; "automationFlowName"]));
   ("retrieve-digital-worker-list",
      (DIGITALWORKER_URL env, digitalworkers, ["hostName"; "status"]));
   ("retrieve-session-list",
      (SESSION_URL env, sessions, ["status"; "requestedDate"]))].

(** [arguments.get("set_resource")] on the caller's own [arguments]. *)
Definition get_set_resource (arguments : option pydict) : result pyval :=
  match arguments with
  | Some d => Return (dict_get d "set_resource" PNone)
  | None => Raise (AttributeError PNone "get")
  end.

(** The [try] body of the retrieve branch. *)
Definition retrieve_list (fuel : nat) (env : environment) (url : string) (key : kind)
    (fields : list string) (arguments : option pydict) (st : state)
  : option (state * result string) :=
  let args := if is_empty arguments then [] else
                match arguments with Some d => d | None => [] end in
  match acquire_token env st with
  | (st1, Raise e) => Some (st1, Raise e)
  | (st1, Return token) =>
      match retrieve_entities fuel env token url key args st1 with
      | None => None
      | Some (st2, updated_store) =>
          match send_resource_list_changed env st2 with
          | (st3, Raise e) => Some (st3, Raise e)
          | (st3, Return _) =>
              match format_resource_result updated_store fields with
              | Raise e => Some (st3, Raise e)
              | Return result_text =>
                  match get_set_resource arguments with
                  | Raise e => Some (st3, Raise e)
                  | Return flag =>
                      let listing :=
                        "Retrieved " ++ str_of_nat (List.length updated_store) ++ " "
                        ++ kind_name key ++ "." ++ str1 lf ++ result_text in
                      if truthy flag
                      then Some (set_resources key (internal_resources st3 key) st3,
                                 Return ("Resource refreshed. " ++ listing))
                      else Some (st3, Return listing)
                  end
              end
          end
      end
  end.

(** [except Exception as e: return [TextContent(text=f"<prefix>{str(e)}")]] *)
Definition caught (prefix : string) (r : result string) : result (list TextContent) :=
  match r with
  | Return s => Return (text_content s)
  | Raise e => Return (text_content (prefix ++ exn_msg e))
  end.

(** [handle_call_tool(name, arguments)] *)
Definition handle_call_tool (fuel : nat) (env : environment) (tool : string)
    (arguments : option pydict) (st : state)
  : option (state * result (list TextContent)) :=
  if store_mem (PStr tool) (internal_resources st workqueues) then
    match submit_work_item env tool arguments st with
    | (st', r) => Some (st', caught "Error creating work queue item: " r)
    end
  else if String.eqb tool "start-automation-flow" then
    match start_automation_flow env arguments st with
    | (st', r) => Some (st', caught "Error starting automation flow: " r)
    end
  else if startswith tool "retrieve-" then
    match lookup_str tool (mapping env) with
    | None => Some (st, Raise (ValueError ("Unknown tool: " ++ tool)))
    | Some (url, key, fields) =>
        match retrieve_list fuel env url key fields arguments st with
        | None => None
        | Some (st', r) => Some (st', caught ("Error " ++ kind_name key ++ ": ") r)
        end
    end
  else Some (st, Raise (ValueError ("Unknown tool: " ++ tool))).

(** ** Scripted environments, for running the handlers on concrete input *)

Module Script.

Definition is_request (e : event) : bool :=
  match e with EvRequest _ => true | _ => false end.

Definition is_token (e : event) : bool :=
  match e with EvToken => true | _ => false end.

Definition requests_of (h : list event) : list request :=
  flat_map (fun e => match e with EvRequest r => [r] | _ => [] end) h.

Definition ConnectionError : exn := Exn "ClientConnectionError" "Cannot connect to host".

(** The n-th HTTP request of a run gets the n-th scripted response, the
    n-th token request the n-th scripted token; past the script the
    connection fails. *)
Definition scripted_respond (responses : list (result pyval))
  : list event -> request -> result pyval :=
  fun h _ => nth (List.length (filter is_request h)) responses (Raise ConnectionError).

Definition scripted_tokens (tokens : list (result string))
  : list event -> result string :=
  fun h => nth (List.length (filter is_token h)) tokens (Raise ConnectionError).

(** A [json] codec standing in for the library's: it reads the empty
    object only, and writes [repr]. *)
Definition toy_loads (s : string) : result pyval :=
  if String.eqb s "{}" then Return (PDict [])
  else Raise (Exn "JSONDecodeError" "Expecting value: line 1 column 1 (char 0)").

Definition env_of (tokens : list (result string)) (responses : list (result pyval))
    (files : string -> result (list pydict)) : environment :=
  {| BASE_URL := Some "https://api.example";
     fetch_token := scripted_tokens tokens;
     respond := scripted_respond responses;
     session := fun _ => Session (Return tt);
     csv_rows := files;
     json_loads := toy_loads;
     json_dumps := fun _ v => py_repr v |}.

Definition no_files : string -> result (list pydict) :=
  fun _ => Raise (Exn "FileNotFoundError" "No such file or directory").

Definition entity (id : string) (fields : pydict) : pyval :=
  PDict (("id", PStr id) :: fields).

End Script.

(** ** Vocabulary for the statements *)

(** [item.get("entity", item)] and [entity.get("id")] on dicts. *)
Definition entity_of (item : pyval) : pyval :=
  match item with
  | PDict d => dict_get d "entity" item
  | _ => item
  end.

Definition id_of (entity : pyval) : pyval :=
  match entity with
  | PDict d => dict_get d "id" PNone
  | _ => PNone
  end.

(** A page the loop body gets through without an exception.  (Whether it
    does depends on neither the url nor the store, see
    [process_page_well_formed].) *)
Definition well_formed_page (response : pyval) : bool :=
  match process_page response "" [] with
  | (_, Caught _) => false
  | _ => true
  end.

(** The entities of a page, in the order the [for] loop meets them. *)
Definition page_entities (response : pyval) : list pyval :=
  match page_items response with
  | Return items =>
      match py_iter items with
      | Return l => map entity_of l
      | Raise _ => []
      end
  | Raise _ => []
  end.

(** Where the loop goes after a page: the next url and params, or
    nowhere. *)
Definition page_next (url : string) (response : pyval) : option (string * pydict) :=
  match next_page_token response with
  | Return t => advance url t
  | Raise _ => None
  end.

(** How a pass ends when nothing was raised. *)
Definition pass_of (next : option (string * pydict)) : pass_end :=
  match next with
  | Some (url, params) => Continue url params
  | None => Break
  end.

(** Writing a list of entities into a store, one after the other. *)
Definition write_entity (store : pystore) (e : pyval) : pystore :=
  if truthy (id_of e) then store_put (id_of e) e store else store.

Definition merge_entities (es : list pyval) (store : pystore) : pystore :=
  fold_left write_entity es store.


(** [fetches env token url params h pages url' params' h']: starting at
    the head of the loop with [url], [params] and history [h], the walker
    is answered the well-formed [pages] in turn, each carrying a
    continuation, and is back at the head of the loop with [url'],
    [params'] and history [h']. *)
Inductive fetches (env : environment) (token : string)
  : string -> pydict -> list event -> list pyval ->
    string -> pydict -> list event -> Prop :=
| fetches_nil url params h :
    fetches env token url params h [] url params h
| fetches_cons url params h page url1 params1 pages url2 params2 h2 :
    respond env h (GET url token params) = Return page ->
    well_formed_page page = true ->
    page_next url page = Some (url1, params1) ->
    fetches env token url1 params1 (h ++ [EvRequest (GET url token params)])%list
            pages url2 params2 h2 ->
    fetches env token url params h (page :: pages) url2 params2 h2.

(** The keys a dict can hold, up to Python's equality of keys. *)
Inductive hkey : Type :=
| KNone
| KStr (s : string)
| KNum (z : Z).

Definition key_of (v : pyval) : option hkey :=
  match v with
  | PNone => Some KNone
  | PStr s => Some (KStr s)
  | PInt z => Some (KNum z)
  | PBool b => Some (KNum (if b then 1 else 0))
  | _ => None
  end.

(** [config.get("priority") or "100"], the argument of [int]. *)
Definition configured_priority (config : pydict) : pyval :=
  py_or (dict_get config "priority" PNone) (PStr "100").

(** [internal_resources["workqueues"][row["name"]] = row] *)
Definition register (lookup : pystore) (row : pydict) : pystore :=
  store_put (dict_get row "name" PNone) (PDict row) lookup.

(** The tool names [handle_call_tool] has a branch for. *)
Definition dispatchable (env : environment) (st : state) (tool : string) : bool :=
  store_mem (PStr tool) (internal_resources st workqueues)
  || String.eqb tool "start-automation-flow"
  || match lookup_str tool (mapping env) with Some _ => true | None => false end.

(** ** The remaining handlers *)

Module Catalog.







(** [mcp.types.Resource]; [r_uri] is what [AnyUrl(...)] made of the
    string. *)
Record Resource : Type :=
  { r_uri : string; r_name : string; r_description : string; r_mimeType : string }.

(** The body of the [try] for one object of one schema.  [AnyUrl] is a
    parameter: it validates and normalises, or raises.  [Resource]
    requires [name] to be a [str]. *)
Definition resource_of (env : environment) (AnyUrl : string -> result string)
    (schema : string) (id obj : pyval) : result Resource :=
  name_v <- py_get obj "name" id ;;
  let description := json_dumps env false obj in
  u <- AnyUrl (schema ++ "://internal/" ++ py_str id) ;;
  match name_v with
  | PStr n =>
      Return {| r_uri := u; r_name := n; r_description := description;
                r_mimeType := "text/plain" |}
  | _ => Raise (Exn "ValidationError" "1 validation error for Resource")
  end.

(** The inner loop: an object that raises is logged and skipped. *)
Definition schema_resources (env : environment) (AnyUrl : string -> result string)
    (schema : string) (objects : pystore) : list Resource :=
  flat_map (fun entry => match resource_of env AnyUrl schema (fst entry) (snd entry) with
                         | Return r => [r]
                         | Raise _ => []
                         end) objects.

(** The order in which [resources.items()] yields the kinds. *)
Definition kinds : list kind :=
  [automationflows; activitylogs; digitalworkers; sessions; workqueues].

(** [handle_list_resources()] *)
Definition handle_list_resources (env : environment) (AnyUrl : string -> result string)
    (st : state) : list Resource :=
  flat_map (fun k => schema_resources env AnyUrl (kind_name k) (resources st k)) kinds.

(** [CLIENT_ID] and [CLIENT_SECRET]: [None] when the variable is unset,
    afterwards whatever the login prompt was given. *)
Record credentials : Type := { CLIENT_ID : pyval; CLIENT_SECRET : pyval }.

Record PromptArgument : Type :=
  { pa_name : string; pa_description : string; pa_required : bool }.

Record Prompt : Type :=
  { p_name : string; p_description : string; p_arguments : list PromptArgument }.

Record PromptMessage : Type := { role : string; content : TextContent }.

Record GetPromptResult : Type :=
  { g_description : string; messages : list PromptMessage }.

Definition login_prompt : Prompt :=
  {| p_name := "Set-NextGen-Login";
     p_description := "Configure Blue Prism Next Gen Client ID and Secret.";
     p_arguments :=
       [{| pa_name := "id"; pa_description := "Next Gen Client ID"; pa_required := true |};
        {| pa_name := "secret"; pa_description := "Next Gen Client Secret";
           pa_required := true |}] |}.

(** [handle_list_prompts()] *)
Definition handle_list_prompts (creds : credentials) : list Prompt :=
  if negb (truthy (CLIENT_ID creds)) || negb (truthy (CLIENT_SECRET creds))
  then [login_prompt] else [].

Definition user_message (s : string) : list PromptMessage :=
  [{| role := "user"; content := {| type_ := "text"; text := s |} |}].

(** [server.request_context and server.request_context.session] followed
    by [await session.send_prompt_list_changed()]; the history keeps no
    trace of this notification. *)
Definition send_prompt_list_changed (prompt_session : list event -> session_outcome)
    (st : state) : result unit :=
  match prompt_session (history st) with
  | NoContext e => Raise e
  | NoSession => Return tt
  | Session sent => sent
  end.

(** [handle_get_prompt(name, arguments)]; [arguments or {}] is the
    arguments when there are any and the empty dict otherwise, an empty
    [arguments] being that empty dict already. *)
Definition handle_get_prompt (env : environment)
    (prompt_session : list event -> session_outcome)
    (prompt : string) (arguments : option pydict) (creds : credentials) (st : state)
  : credentials * state * result GetPromptResult :=
  if String.eqb prompt "Set-NextGen-Login" then
    let given := match arguments with
                 | Some d => d
                 | None => []
                 end in
    let creds' := {| CLIENT_ID := dict_get given "id" (PStr "");
                     CLIENT_SECRET := dict_get given "secret" (PStr "") |} in
    match get_access_token env st with
    | (st1, Return token) =>
        match send_prompt_list_changed prompt_session st1 with
        | Return _ =>
            (creds', st1,
             Return {| g_description :=
                         "Connection information configured successfully.:" ++ token;
                       messages := user_message "Setup complete." |})
        | Raise e =>
            (creds', st1,
             Return {| g_description := "Connection setup failed.";
                       messages := user_message ("Error: " ++ exn_msg e) |})
        end
    | (st1, Raise e) =>
        (creds', st1,
         Return {| g_description := "Connection setup failed.";
                   messages := user_message ("Error: " ++ exn_msg e) |})
    end
  else (creds, st, Raise (ValueError ("Unknown prompt: " ++ prompt))).

End Catalog.
Import Catalog.

(** ** Concrete runs *)

Module Examples.
Import Script.

Definition flow_a : pyval := entity "a" [("name", PStr "Flow A")].
Definition flow_a' : pyval := entity "a" [("name", PStr "Flow A, renamed")].
Definition flow_b : pyval := entity "b" [("name", PStr "Flow B")].
Definition anonymous : pyval := PDict [("name", PStr "no id")].
Definition blank : pyval := entity "" [("name", PStr "empty id")].

(** First page: the [items] envelope and a page token. *)
Definition page1 : pyval :=
  PDict [("items", PList [flow_a; anonymous; flow_b]); ("nextPageToken", PStr "t2")].

(** Last page: the [value] envelope with wrapped entities, no
    continuation. *)
Definition page2 : pyval :=
  PDict [("value", PList [PDict [("entity", flow_a')]; blank])].

(** Two pages, then the connection drops. *)
Definition env_two_pages : environment :=
  env_of [Return "tok"] [Return page1; Return page2] no_files.

(** One page, then the connection drops. *)
Definition env_one_page : environment :=
  env_of [Return "tok"] [Return page1] no_files.

Definition first_get : request := GET "https://api.example/automation-flows" "tok" [].
Definition second_get : request :=
  GET "https://api.example/automation-flows" "tok" [("pagetoken", PStr "t2")].

(** A last page whose token field is present and null. *)
Definition page_null_token : pydict :=
  [("items", PList [flow_a]); ("nextPageToken", PNone)].

Definition env_null_token : environment :=
  env_of [Return "tok"] [Return (PDict page_null_token); Return page2] no_files.

(** An OData link to another host, then a page token, then the end. *)
Definition page_link : pyval :=
  PDict [("value", PList []); ("@odata.nextLink", PStr "https://other.example/next?skip=2")].
Definition page_token : pyval :=
  PDict [("value", PList []); ("nextPageToken", PStr "t3")].
Definition page_end : pyval := PDict [("value", PList [])].

Definition env_link_then_token : environment :=
  env_of [Return "tok"] [Return page_link; Return page_token; Return page_end] no_files.

(** A page with a token whose only item is not an object. *)
Definition page_bad_item : pydict :=
  [("items", PList [PStr "oops"]); ("nextPageToken", PStr "t2")].

Definition env_bad_item : environment :=
  env_of [Return "tok"] [Return (PDict page_bad_item); Return page2] no_files.

(** A page with an empty [items] array next to a [value] array. *)
Definition page_both : pydict :=
  [("items", PList []); ("value", PList [flow_a])].

(** The requests a retrieval has made when it returns. *)
Definition requests_made (run : option (state * pystore)) : option (list request) :=
  option_map (fun r => requests_of (history (fst r))) run.

Definition walk (env : environment) : option (state * pystore) :=
  retrieve_entities 5 env "tok" "https://api.example/automation-flows"
                    automationflows [] initial_state.

Definition listing_url : string := "https://api.example/automation-flows".

(** A first call that lists without publishing, and a second one asking to
    publish while the token endpoint is down. *)
Definition env_token_expires : environment :=
  env_of [Return "tok"; Raise (Exn "InvalidClientError" "(invalid_client)")]
         [Return page2] no_files.

Definition after_first_call : option state :=
  option_map fst (handle_call_tool 5 env_token_expires "retrieve-automation-flow-list"
                    (Some [("set_resource", PBool false)]) initial_state).

Definition second_call (st : state) : option (state * result (list TextContent)) :=
  handle_call_tool 5 env_token_expires "retrieve-automation-flow-list"
                   (Some [("set_resource", PBool true)]) st.

(** A flow whose description is null, as the API sends it when none was
    entered. *)
Definition flow_c : pyval := entity "c" [("name", PStr "Flow C"); ("description", PNone)].

Definition env_null_field : environment :=
  env_of [Return "tok"] [Return (PDict [("items", PList [flow_c])])] no_files.

(** A session whose notification fails. *)
Definition env_closed_session : environment :=
  {| BASE_URL := Some "https://api.example";
     fetch_token := scripted_tokens [Return "tok"];
     respond := scripted_respond [Return page2];
     session := fun _ => Session (Raise (Exn "ClosedResourceError" ""));
     csv_rows := no_files;
     json_loads := toy_loads;
     json_dumps := fun _ v => py_repr v |}.

Definition publish_call (env : environment) : option (state * result (list TextContent)) :=
  handle_call_tool 5 env "retrieve-automation-flow-list"
                   (Some [("set_resource", PBool true)]) initial_state.

Definition two_calls : option (state * result (list TextContent)) :=
  match after_first_call with
  | Some st => second_call st
  | None => None
  end.

(** What a call returned, with the staging and the published mapping of
    automation flows after it. *)
Definition outcome (run : option (state * result (list TextContent)))
  : option (result (list TextContent) * pystore * pystore) :=
  match run with
  | Some (st, r) =>
      Some (r, internal_resources st automationflows, resources st automationflows)
  | None => None
  end.

(** A row of the tools table, as [csv.DictReader] yields it. *)
Definition row (tool priority schema : string) : pydict :=
  [("name", PStr tool); ("description", PStr "Enqueue an invoice");
   ("inputSchema", PStr schema); ("workqueueid", PStr "q-1");
   ("keyValue", PStr "invoice"); ("priority", PStr priority);
   ("status", PStr "New"); ("tags", PStr "mcp, invoices")].

Definition table : list pydict :=
  [row "enqueue-default" "" "{}"; row "enqueue-50" "50" "{}";
   row "enqueue-abc" "abc" "{}"].

Definition env_queue : environment :=
  env_of [Return "tok"] [Return (PDict [("itemId", PStr "item-1")])]
         (fun _ => Return table).

Definition loaded : state :=
  fst (load_tools_from_csv env_queue "workqueues.csv" initial_state).

Definition submit (tool : string) : option (state * result (list TextContent)) :=
  handle_call_tool 0 env_queue tool (Some [("invoice", PStr "42")]) loaded.

(** The [priority] fields of the bodies a call has sent, and its text. *)
Definition sent_priorities (run : option (state * result (list TextContent)))
  : option (list pyval * result (list TextContent)) :=
  match run with
  | Some (st, r) =>
      Some (map (fun q => match req_json q with
                          | Some (PDict body) => dict_get body "priority" PNone
                          | _ => PNone
                          end) (requests_of (history st)), r)
  | None => None
  end.

(** The same table with a second row whose input shape is not JSON. *)
Definition broken_table : list pydict :=
  [row "enqueue-default" "" "{}"; row "enqueue-broken" "50" "{'type': object";
   row "enqueue-abc" "abc" "{}"].

Definition env_broken_table : environment :=
  env_of [Return "tok"] [] (fun _ => Return broken_table).

Definition flow_uri : AnyUrl := {| scheme := "automationflows"; path := Some "/a" |}.
Definition log_uri : AnyUrl := {| scheme := "activitylog"; path := Some "/run-7" |}.
Definition ftp_uri : AnyUrl := {| scheme := "ftp"; path := Some "/a" |}.

(** The token is granted and the API is unreachable. *)
Definition env_api_down : environment := env_of [Return "tok"] [] no_files.

(** The token endpoint is unreachable. *)
Definition env_oauth_down : environment := env_of [] [] no_files.

(** An API that answers every request with a page carrying a token. *)
Definition env_endless : environment :=
  {| BASE_URL := Some "https://api.example";
     fetch_token := scripted_tokens [Return "tok"];
     respond := fun _ _ => Return page_token;
     session := fun _ => Session (Return tt);
     csv_rows := no_files;
     json_loads := toy_loads;
     json_dumps := fun _ v => py_repr v |}.

(** A row shorter than the header: [DictReader] fills the missing
    trailing columns with [None]. *)
Definition short_row : pydict :=
  [("name", PStr "enqueue-short"); ("description", PStr "Enqueue an invoice");
   ("inputSchema", PStr "{}"); ("workqueueid", PStr "q-1");
   ("keyValue", PStr "invoice"); ("priority", PStr "10");
   ("status", PNone); ("tags", PNone)].

Definition short_loaded : state :=
  set_internal workqueues [(PStr "enqueue-short", PDict short_row)] initial_state.

(** The API starts a flow and answers with the execution. *)
Definition env_flow_started : environment :=
  env_of [Return "tok"] [Return (PDict [("id", PStr "run-7"); ("status", PStr "Pending")])]
         no_files.

(** The same, with a session whose notification fails. *)
Definition env_flow_started_closed : environment :=
  {| BASE_URL := Some "https://api.example";
     fetch_token := scripted_tokens [Return "tok"];
     respond := scripted_respond [Return (PDict [("id", PStr "run-7")])];
     session := fun _ => Session (Raise (Exn "ClosedResourceError" ""));
     csv_rows := no_files;
     json_loads := toy_loads;
     json_dumps := fun _ v => py_repr v |}.

Definition start_call (env : environment) : option (state * result (list TextContent)) :=
  handle_call_tool 0 env "start-automation-flow"
                   (Some [("automation_flow_id", PStr "flow-1")]) initial_state.

(** A url validator that accepts everything and changes nothing. *)
Definition any_url_ok (s : string) : result string := Return s.

(** The state after the two pages were listed and published. *)
Definition published : option state :=
  option_map fst (publish_call env_two_pages).

Definition published_state : state :=
  match published with
  | Some st => st
  | None => initial_state
  end.

(** No credentials in the environment of the process. *)
Definition no_credentials : credentials := {| CLIENT_ID := PNone; CLIENT_SECRET := PNone |}.

Definition login : pydict := [("id", PStr "client-1"); ("secret", PStr "s3cret")].

Definition prompt_session_ok : list event -> session_outcome :=
  fun _ => Session (Return tt).


End Examples.


(** ** Vocabulary for the further statements *)

(** Keys pairwise different, as Python compares keys. *)
Fixpoint keys_distinct (s : pystore) : bool :=
  match s with
  | [] => true
  | (k, _) :: s' => negb (store_mem k s') && keys_distinct s'
  end.

(** An entry that holds an entity under the entity's own non-empty id. *)
Definition filed_under_id (entry : pyval * pyval) : bool :=
  truthy (id_of (snd entry)) && key_eqb (fst entry) (id_of (snd entry)).


(** An entry [format_resource_result] can print: a string key, and, when
    fields are projected, a dict whose projected fields are strings or
    absent. *)
Definition printable_field (d : pydict) (field : string) : bool :=
  match dict_get d field (PStr "") with
  | PStr _ => true
  | _ => false
  end.

Definition printable (fields : list string) (entry : pyval * pyval) : bool :=
  match entry with
  | (PStr _, v) =>
      match fields with
      | [] => true
      | _ => match v with
             | PDict d => forallb (printable_field d) fields
             | _ => false
             end
      end
  | _ => false
  end.

(** The line of an entry: the key, then each projected field or the
    empty string, with [|] between. *)
Definition field_text (v : pyval) (field : string) : string :=
  match v with
  | PDict d => py_str (dict_get d field (PStr ""))
  | _ => ""
  end.

Definition render (fields : list string) (entry : pyval * pyval) : string :=
  String.concat "|" (py_str (fst entry) :: map (field_text (snd entry)) fields).

(** An argument value [ET.tostring] cannot write. *)
Definition unwritable (v : pyval) : bool :=
  match v with
  | PNone | PBool _ | PInt _ => true
  | _ => false
  end.

Definition is_string (v : pyval) : bool :=
  match v with
  | PStr _ => true
  | _ => false
  end.

(** The events of a history that are API requests. *)
Definition api_requests (h : list event) : list request :=
  flat_map (fun e => match e with EvRequest r => [r] | _ => [] end) h.

(** What every store built by the walker satisfies. *)
Definition walker_store (s : pystore) : Prop :=
  keys_distinct s = true /\ forallb filed_under_id s = true.

(** The children of an element, serialised one after the other. *)
Fixpoint serialize_all (cs : list Element) : result string :=
  match cs with
  | [] => Return EmptyString
  | c :: cs' => x <- tostring c ;; y <- serialize_all cs' ;; Return (x ++ y)
  end.

Definition quoted (s : string) : string := str1 dq ++ s ++ str1 dq.

(** The element written for one argument with a string value. *)
Definition field_xml (name_value : string * pyval) : string :=
  "<field name=" ++ quoted (replace_chars attrib_entity (fst name_value))
  ++ " type=" ++ quoted "text"
  ++ " value=" ++ quoted (replace_chars attrib_entity (py_str (snd name_value)))
  ++ " />".

(** The request that starts a flow. *)
Definition start_request (env : environment) (flow_id : pyval) (token : string) : request :=
  POST (AUTOMATIONFLOW_URL env ++ "/" ++ py_str flow_id ++ "/executions") token None.

(** A token provider that fails: it raises or hands out the empty
    token. *)
Definition no_credential (env : environment) (st : state) : Prop :=
  forall token, fetch_token env (history st) = Return token -> token = "".

(** A notification that goes through, or is not attempted. *)
Definition notified (o : session_outcome) : bool :=
  match o with
  | NoSession | Session (Return _) => true
  | _ => false
  end.



(** A call that asks for nothing to be published. *)
Definition no_set_resource (arguments : option pydict) : Prop :=
  match arguments with
  | Some a => truthy (dict_get a "set_resource" PNone) = false
  | None => True
  end.

(** The url a work item is posted to. *)
Definition workqueue_url (env : environment) (queue_id : pyval) : string :=
  fmt_opt (BASE_URL env) ++ "/work-queues/" ++ py_str queue_id ++ "/items".

(** * Properties *)

(** ** Stores *)

Lemma kind_eqb_eq (a b : kind) : kind_eqb a b = true <-> a = b.
Proof. destruct a, b; simpl; split; congruence. Qed.

Lemma upd_same (f : kind -> pystore) (k : kind) (s : pystore) : upd f k s k = s.
Proof. unfold upd. destruct k; reflexivity. Qed.

Lemma upd_other (f : kind -> pystore) (k k' : kind) (s : pystore) :
  k <> k' -> upd f k s k' = f k'.
Proof.
  intros H. unfold upd. destruct (kind_eqb k k') eqn:E; [|reflexivity].
  apply kind_eqb_eq in E. contradiction.
Qed.

Lemma key_eqb_spec (a b : pyval) :
  key_eqb a b = true <-> exists h, key_of a = Some h /\ key_of b = Some h.
Proof.
  split.
  - destruct a, b; simpl; try discriminate; intros H.
    + eexists; eauto.
    + apply Bool.eqb_prop in H. subst. eexists; eauto.
    + apply Z.eqb_eq in H. subst. eexists; eauto.
    + apply Z.eqb_eq in H. subst. eexists; eauto.
    + apply Z.eqb_eq in H. subst. eexists; eauto.
    + apply String.eqb_eq in H. subst. eexists; eauto.
  - intros [h [Ha Hb]].
    destruct a, b; simpl in *; try discriminate; try reflexivity;
      inversion Ha; subst; inversion Hb; subst.
    + destruct b, b0; simpl in *; congruence.
    + apply Z.eqb_eq. congruence.
    + apply Z.eqb_eq. congruence.
    + apply Z.eqb_eq. congruence.
    + apply String.eqb_refl.
Qed.

Lemma key_eqb_trans_l (a b c : pyval) :
  key_eqb a b = true -> key_eqb c a = key_eqb c b.
Proof.
  intros Hab. apply key_eqb_spec in Hab. destruct Hab as [h [Ha Hb]].
  destruct (key_eqb c a) eqn:Eca; symmetry.
  - apply key_eqb_spec in Eca. destruct Eca as [h' [Hc Ha']].
    apply key_eqb_spec. exists h. split; congruence.
  - destruct (key_eqb c b) eqn:Ecb; [|reflexivity].
    apply key_eqb_spec in Ecb. destruct Ecb as [h' [Hc Hb']].
    assert (key_eqb c a = true) by (apply key_eqb_spec; exists h; split; congruence).
    congruence.
Qed.

Lemma key_eqb_sym (a b : pyval) : key_eqb a b = key_eqb b a.
Proof.
  destruct (key_eqb a b) eqn:E; symmetry.
  - apply key_eqb_spec in E. destruct E as [h [? ?]]. apply key_eqb_spec. eauto.
  - destruct (key_eqb b a) eqn:E'; [|reflexivity].
    apply key_eqb_spec in E'. destruct E' as [h [? ?]].
    assert (key_eqb a b = true) by (apply key_eqb_spec; eauto). congruence.
Qed.

(** Reading a store after a write. *)
Lemma store_get_put (k k' v : pyval) (s : pystore) :
  store_get k (store_put k' v s) = if key_eqb k k' then Some v else store_get k s.
Proof.
  induction s as [|[k'' v''] s IH]; simpl.
  - reflexivity.
  - destruct (key_eqb k' k'') eqn:E; simpl.
    + rewrite (key_eqb_trans_l _ _ k E). destruct (key_eqb k k''); reflexivity.
    + rewrite IH. destruct (key_eqb k k'') eqn:E1; [|reflexivity].
      destruct (key_eqb k k') eqn:E2; [|reflexivity].
      rewrite key_eqb_sym in E1. rewrite (key_eqb_trans_l _ _ k' E1) in E.
      rewrite key_eqb_sym in E. congruence.
Qed.

(** ** The loop body *)

(** An item either raises whatever the store holds, or writes its entity
    under its id when the id is non-empty. *)
Lemma merge_item_cases (item : pyval) :
  (exists e, forall s, merge_item item s = Raise e)
  \/ (forall s, merge_item item s = Return (write_entity s (entity_of item))).
Proof.
  unfold merge_item, write_entity.
  destruct item as [| | | | |d]; try (left; eexists; intros; reflexivity).
  simpl. destruct (dict_get d "entity" (PDict d)) as [| | | | |d'] eqn:E;
    try (left; eexists; intros; reflexivity).
  simpl. destruct (truthy (dict_get d' "id" PNone)) eqn:T.
  - unfold store_set. destruct (hashable (dict_get d' "id" PNone)).
    + right. reflexivity.
    + left. eexists. reflexivity.
  - right. reflexivity.
Qed.

Lemma merge_items_ok (l : list pyval) :
  forall s0 s0', merge_items l s0 = (s0', None) ->
  forall s, merge_items l s = (merge_entities (map entity_of l) s, None).
Proof.
  induction l as [|item l IH]; intros s0 s0' H s; simpl in *.
  - reflexivity.
  - destruct (merge_item_cases item) as [[e He]|Hw].
    + rewrite He in H. discriminate.
    + rewrite Hw in *. eapply IH. exact H.
Qed.

Lemma merge_items_error (l : list pyval) :
  forall s0 s0' e, merge_items l s0 = (s0', Some e) ->
  forall s, exists s', merge_items l s = (s', Some e).
Proof.
  induction l as [|item l IH]; intros s0 s0' e H s; simpl in *.
  - discriminate.
  - destruct (merge_item_cases item) as [[e' He]|Hw].
    + rewrite He in *. inversion H; subst. eauto.
    + rewrite Hw in *. eapply IH. exact H.
Qed.

(** On a well-formed page the pass writes the page's entities and ends as
    the continuation says, for every url and store. *)
Lemma process_page_well_formed (response : pyval) (url : string) (store : pystore) :
  well_formed_page response = true ->
  process_page response url store
  = (merge_entities (page_entities response) store, pass_of (page_next url response)).
Proof.
  unfold well_formed_page, process_page, page_entities, page_next.
  destruct (page_items response) as [items|e]; [|discriminate].
  destruct (py_iter items) as [l|e]; [|discriminate].
  destruct (merge_items l []) as [s0' [e|]] eqn:M; [discriminate|].
  rewrite (merge_items_ok l _ _ M store).
  destruct (next_page_token response) as [t|e]; [|discriminate].
  intros _. destruct (advance url t) as [[u p]|]; reflexivity.
Qed.

(** A page that is not well formed ends the loop in the [except] clause. *)
Lemma process_page_ill_formed (response : pyval) (url : string) (store : pystore) :
  well_formed_page response = false ->
  exists store' e, process_page response url store = (store', Caught e).
Proof.
  unfold well_formed_page, process_page.
  destruct (page_items response) as [items|e]; [|eauto].
  destruct (py_iter items) as [l|e]; [|eauto].
  destruct (merge_items l []) as [s0' [e|]] eqn:M.
  - destruct (merge_items_error l _ _ _ M store) as [s' Hs']. rewrite Hs'. eauto.
  - rewrite (merge_items_ok l _ _ M store).
    destruct (next_page_token response) as [t|e]; [|eauto].
    destruct (advance "" t) as [[u p]|]; discriminate.
Qed.



Lemma merge_entities_app (es1 es2 : list pyval) (s : pystore) :
  merge_entities (es1 ++ es2)%list s = merge_entities es2 (merge_entities es1 s).
Proof. unfold merge_entities. apply fold_left_app. Qed.

(** ** The loop *)

(** The store the walker has built after a run of well-formed pages. *)
Lemma merge_pages_flat (pages : list pyval) (s : pystore) :
  fold_left (fun acc page => merge_entities (page_entities page) acc) pages s
  = merge_entities (flat_map page_entities pages) s.
Proof.
  revert s. induction pages as [|p pages IH]; intros s; simpl; [reflexivity|].
  rewrite IH, merge_entities_app. reflexivity.
Qed.

(** After the pages of [fetches] the loop stands where the relation says,
    with the entities of those pages written to the store of [key] and
    nothing else touched. *)
Lemma retrieve_loop_fetches (env : environment) (token : string) (key : kind) :
  forall url params h pages url2 params2 h2,
  fetches env token url params h pages url2 params2 h2 ->
  forall st, history st = h ->
  exists st2,
    (forall fuel,
        retrieve_loop (List.length pages + fuel) env token key url params st
        = retrieve_loop fuel env token key url2 params2 st2)
    /\ history st2 = h2
    /\ internal_resources st2 key
       = merge_entities (flat_map page_entities pages) (internal_resources st key)
    /\ (forall k, k <> key -> internal_resources st2 k = internal_resources st k)
    /\ resources st2 = resources st.
Proof.
  intros url params h pages url2 params2 h2 F.
  induction F as [url params h
                 |url params h page url1 params1 pages url2 params2 h2 R W N F IH];
    intros st Hh.
  - exists st. simpl. repeat split; auto.
  - set (st1 := set_internal key
                  (merge_entities (page_entities page) (internal_resources st key))
                  (record (EvRequest (GET url token params)) st)).
    destruct (IH st1) as [st2 [Hrun [Hh2 [Hs [Ho Hr]]]]].
    { simpl. rewrite Hh. reflexivity. }
    exists st2. repeat split.
    + intros fuel. simpl. unfold async_request. rewrite Hh, R. simpl.
      rewrite (process_page_well_formed _ _ _ W), N. simpl. apply Hrun.
    + exact Hh2.
    + rewrite Hs. simpl. rewrite upd_same. rewrite merge_entities_app. reflexivity.
    + intros k Hk. rewrite (Ho k Hk). simpl. apply upd_other. congruence.
    + rewrite Hr. reflexivity.
Qed.

(** ** Failure in the middle of a walk *)

(** C2.  When the walker has been answered some well-formed pages, each
    with a continuation, and the next request fails (HTTP status,
    transport or JSON parsing, all of which [async_request] raises), then
    [retrieve_entities] returns, given fuel for those passes, and what it
    returns is the staging mapping holding the entities of the pages
    fetched before the failure; the other stores are untouched. *)
Theorem retrieve_entities_returns_partial_on_failure :
  forall env token url key args st pages url' params' h' e fuel,
    fetches env token url (walker_params args) (history st) pages url' params' h' ->
    respond env h' (GET url' token params') = Raise e ->
    List.length pages < fuel ->
    exists st',
      retrieve_entities fuel env token url key args st
      = Some (st', merge_entities (flat_map page_entities pages) [])
      /\ internal_resources st' key = merge_entities (flat_map page_entities pages) []
      /\ history st' = (h' ++ [EvRequest (GET url' token params')])%list
      /\ (forall k, k <> key -> internal_resources st' k = internal_resources st k)
      /\ resources st' = resources st.
Proof.
  intros env token url key args st pages url' params' h' e fuel F R L.
  destruct (retrieve_loop_fetches env token key _ _ _ _ _ _ _ F (set_internal key [] st) eq_refl)
    as [st2 [Hrun [Hh [Hs [Ho Hr]]]]].
  replace fuel with (List.length pages + S (fuel - S (List.length pages))) by lia.
  exists (record (EvRequest (GET url' token params')) st2).
  unfold retrieve_entities. rewrite Hrun. simpl.
  unfold async_request. rewrite Hh, R. simpl.
  rewrite Hs. simpl. rewrite upd_same.
  split; [reflexivity|]. split; [reflexivity|]. split; [reflexivity|]. split.
  - intros k Hk. rewrite (Ho k Hk). simpl. apply upd_other. congruence.
  - rewrite Hr. reflexivity.
Qed.

Lemma retrieve_entities_returns_partial_on_failure_witness :
  exists st',
    retrieve_entities 2 Examples.env_one_page "tok" "https://api.example/automation-flows"
                      automationflows [] initial_state
    = Some (st', merge_entities (flat_map page_entities [Examples.page1]) [])
    /\ internal_resources st' automationflows
       = merge_entities (flat_map page_entities [Examples.page1]) []
    /\ history st' = ([EvRequest Examples.first_get]
                       ++ [EvRequest Examples.second_get])%list
    /\ (forall k, k <> automationflows ->
                  internal_resources st' k = internal_resources initial_state k)
    /\ resources st' = resources initial_state.
Proof.
  apply (retrieve_entities_returns_partial_on_failure
           Examples.env_one_page "tok" "https://api.example/automation-flows"
           automationflows [] initial_state [Examples.page1]
           "https://api.example/automation-flows" [("pagetoken", PStr "t2")]
           [EvRequest Examples.first_get] Script.ConnectionError 2).
  - eapply fetches_cons; [reflexivity | reflexivity | reflexivity | apply fetches_nil].
  - reflexivity.
  - simpl. lia.
Defined.

(** ** A walk that runs to the end *)



(** The two-page run of [Examples]: the renamed flow of the second page
    replaces the first page's, in the first page's place; the entities
    without an id or with an empty one are not stored. *)
Example two_pages_merged :
  option_map snd (Examples.walk Examples.env_two_pages)
  = Some [(PStr "a", Examples.flow_a'); (PStr "b", Examples.flow_b)].
Proof. reflexivity. Qed.

(** ** Continuation *)

(** Whatever the fuel, the history only grows, and a loop that is given
    a pass starts by sending its request. *)
Section History.

Variables (env : environment) (token : string) (key : kind).

Lemma retrieve_loop_history :
  forall fuel url params st,
  exists rest,
    history (fst (retrieve_loop fuel env token key url params st))
    = (history st ++ rest)%list.
Proof.
  induction fuel as [|fuel IH]; intros url params st; simpl.
  - exists []. rewrite app_nil_r. reflexivity.
  - unfold async_request.
    destruct (respond env (history st) (GET url token params)) as [response|e]; simpl.
    + destruct (process_page response url _) as [store' [url' params'| |e]]; simpl.
      * destruct (IH url' params'
                    (set_internal key store' (record (EvRequest (GET url token params)) st)))
          as [rest Hrest].
        rewrite Hrest. simpl. rewrite <- app_assoc. eexists. reflexivity.
      * eexists. reflexivity.
      * eexists. reflexivity.
    + eexists. reflexivity.
Qed.

Lemma retrieve_loop_first_request :
  forall fuel url params st,
  exists rest,
    history (fst (retrieve_loop (S fuel) env token key url params st))
    = (history st ++ EvRequest (GET url token params) :: rest)%list.
Proof.
  intros fuel url params st. simpl. unfold async_request.
  destruct (respond env (history st) (GET url token params)) as [response|e]; simpl.
  - destruct (process_page response url _) as [store' [url' params'| |e]]; simpl.
    + destruct (retrieve_loop_history fuel url' params'
                  (set_internal key store' (record (EvRequest (GET url token params)) st)))
        as [rest Hrest].
      rewrite Hrest. simpl. rewrite <- app_assoc. eexists. reflexivity.
    + exists []. reflexivity.
    + exists []. reflexivity.
  - exists []. reflexivity.
Qed.

End History.

(** C3, as the code has it.  Take a page that is an object and that the
    loop body gets through without an exception, whatever its items (none
    included), and let [t] be its [nextPageToken] if that is truthy and
    its [@odata.nextLink] otherwise.  If [t] is not truthy (absent, null,
    empty) the loop ends with this page.  If [t] is a string starting
    with [http], the next request is a GET of [t] with no query
    parameters.  In every other case the next request is a GET of the url
    of the request just answered, with [t] as the [pagetoken]
    parameter. *)
Theorem walker_continuation_rule :
  forall env token key url params st d fuel,
    respond env (history st) (GET url token params) = Return (PDict d) ->
    well_formed_page (PDict d) = true ->
    let t := py_or (dict_get d "nextPageToken" PNone) (dict_get d "@odata.nextLink" PNone) in
    let st1 := set_internal key
                 (merge_entities (page_entities (PDict d)) (internal_resources st key))
                 (record (EvRequest (GET url token params)) st) in
    (truthy t = false ->
       retrieve_loop (S fuel) env token key url params st = (st1, true)
       /\ history st1 = (history st ++ [EvRequest (GET url token params)])%list)
    /\ (forall s, t = PStr s -> truthy t = true -> startswith s "http" = true ->
          retrieve_loop (S (S fuel)) env token key url params st
          = retrieve_loop (S fuel) env token key s [] st1
          /\ exists rest,
              history (fst (retrieve_loop (S (S fuel)) env token key url params st))
              = (history st ++ EvRequest (GET url token params)
                            :: EvRequest (GET s token []) :: rest)%list)
    /\ (truthy t = true -> (forall s, t = PStr s -> startswith s "http" = false) ->
          retrieve_loop (S (S fuel)) env token key url params st
          = retrieve_loop (S fuel) env token key url [("pagetoken", t)] st1
          /\ exists rest,
              history (fst (retrieve_loop (S (S fuel)) env token key url params st))
              = (history st ++ EvRequest (GET url token params)
                            :: EvRequest (GET url token [("pagetoken", t)]) :: rest)%list).
Proof.
  intros env token key url params st d fuel R W t st1.
  assert (N : page_next url (PDict d) = advance url t).
  { unfold page_next, next_page_token. simpl. unfold t, py_or.
    destruct (truthy (dict_get d "nextPageToken" PNone)); reflexivity. }
  assert (Step : forall n,
             retrieve_loop (S n) env token key url params st
             = match advance url t with
               | Some (url', params') => retrieve_loop n env token key url' params' st1
               | None => (st1, true)
               end).
  { intros n. simpl. unfold async_request. rewrite R. simpl.
    rewrite (process_page_well_formed _ _ _ W), N.
    destruct (advance url t) as [[u p]|]; reflexivity. }
  split; [|split].
  - intros T. rewrite Step. unfold advance. rewrite T. split; reflexivity.
  - intros s Es T P.
    assert (A : advance url t = Some (s, [])).
    { unfold advance. rewrite T, Es, P. reflexivity. }
    rewrite Step, A. split; [reflexivity|].
    destruct (retrieve_loop_first_request env token key fuel s [] st1) as [rest Hrest].
    exists rest. rewrite Hrest. simpl. rewrite <- app_assoc. reflexivity.
  - intros T P.
    assert (A : advance url t = Some (url, [("pagetoken", t)])).
    { unfold advance. rewrite T. destruct t; try reflexivity.
      rewrite (P s eq_refl). reflexivity. }
    rewrite Step, A. split; [reflexivity|].
    destruct (retrieve_loop_first_request env token key fuel url [("pagetoken", t)] st1)
      as [rest Hrest].
    exists rest. rewrite Hrest. simpl. rewrite <- app_assoc. reflexivity.
Qed.

Lemma walker_continuation_rule_witness :
  exists rest,
    history (fst (retrieve_loop 2 Examples.env_two_pages "tok" automationflows
                    "https://api.example/automation-flows" [] initial_state))
    = (history initial_state
         ++ EvRequest Examples.first_get :: EvRequest Examples.second_get :: rest)%list.
Proof.
  destruct (walker_continuation_rule
              Examples.env_two_pages "tok" automationflows
              "https://api.example/automation-flows" [] initial_state
              [("items", PList [Examples.flow_a; Examples.anonymous; Examples.flow_b]);
               ("nextPageToken", PStr "t2")]
              0 eq_refl eq_refl) as [_ [_ H]].
  apply H.
  - reflexivity.
  - intros s E. inversion E. reflexivity.
Defined.

(** Where the code parts from C3 as written.  A page whose
    [nextPageToken] field is present but null ends the walk after one
    request.  After a continuation that is a link to another host, a page
    token is sent to that host, not to the url the walk started from.  A
    page carrying a token ends the walk when one of its items is not an
    object. *)
Lemma walker_continuation_counterexample :
  (has_key "nextPageToken" Examples.page_null_token = true
   /\ Examples.requests_made (Examples.walk Examples.env_null_token)
      = Some [Examples.first_get])
  /\ Examples.requests_made (Examples.walk Examples.env_link_then_token)
     = Some [Examples.first_get;
             GET "https://other.example/next?skip=2" "tok" [];
             GET "https://other.example/next?skip=2" "tok" [("pagetoken", PStr "t3")]]
  /\ (has_key "nextPageToken" Examples.page_bad_item = true
      /\ Examples.requests_made (Examples.walk Examples.env_bad_item)
         = Some [Examples.first_get]).
Proof. repeat split. Qed.

(** ** The list envelope *)

(** C8, as the code has it.  The walker takes the [items] value when it
    is truthy, that is a non-empty array; otherwise, also when [items] is
    present but empty or null, it takes the [value] value, and the empty
    list when there is no [value] key, in which case the page writes
    nothing.  The list taken is the one merged, and one list gives the
    same pass under either key. *)
Theorem page_items_selection :
  forall d url store,
    let items := dict_get d "items" PNone in
    (truthy items = true -> page_items (PDict d) = Return items)
    /\ (truthy items = false ->
        page_items (PDict d) = Return (dict_get d "value" (PList [])))
    /\ (truthy items = false -> has_key "value" d = false ->
        process_page (PDict d) url store = (store, pass_of (page_next url (PDict d))))
    /\ (forall l, page_items (PDict d) = Return (PList l) ->
                  fst (process_page (PDict d) url store) = fst (merge_items l store))
    /\ (forall l, process_page (PDict [("items", PList l)]) url store
                  = process_page (PDict [("value", PList l)]) url store).
Proof.
  intros d url store items.
  assert (A : truthy items = true -> page_items (PDict d) = Return items).
  { intros T. unfold page_items. simpl. fold items. rewrite T. reflexivity. }
  assert (B : truthy items = false ->
              page_items (PDict d) = Return (dict_get d "value" (PList []))).
  { intros T. unfold page_items. simpl. fold items. rewrite T. reflexivity. }
  split; [exact A|]. split; [exact B|]. split; [|split].
  - intros T V. unfold process_page, page_next. rewrite (B T).
    unfold dict_get, has_key in *. destruct (assoc "value" d); [discriminate|].
    simpl. destruct (next_page_token (PDict d)) as [t|e] eqn:N.
    + destruct (advance url t) as [[? ?]|]; reflexivity.
    + unfold next_page_token in N. simpl in N.
      destruct (truthy (dict_get d "nextPageToken" PNone)); discriminate.
  - intros l H. unfold process_page. rewrite H. simpl.
    destruct (merge_items l store) as [s [e|]]; simpl; [reflexivity|].
    destruct (next_page_token (PDict d)) as [t|e]; [|reflexivity].
    destruct (advance url t) as [[? ?]|]; reflexivity.
  - intros l. destruct l; reflexivity.
Qed.

Lemma page_items_selection_witness :
  fst (process_page (PDict Examples.page_both) "u" [])
  = fst (merge_items [Examples.flow_a] []).
Proof.
  destruct (page_items_selection Examples.page_both "u" []) as [_ [_ [_ [H _]]]].
  apply H. reflexivity.
Defined.

(** Where the code parts from C8 as written: the [items] key is present
    with an empty array, and the walker stores the entity of the [value]
    array all the same. *)
Lemma page_items_counterexample :
  has_key "items" Examples.page_both = true
  /\ dict_get Examples.page_both "items" PNone = PList []
  /\ process_page (PDict Examples.page_both) "u" []
     = ([(PStr "a", Examples.flow_a)], Break).
Proof. repeat split. Qed.

(** ** The dispatcher's boundary *)

Lemma caught_returns (prefix : string) (r : result string) :
  exists s, caught prefix r = Return (text_content s).
Proof. destruct r; simpl; eauto. Qed.

(** The four names of the table all carry the prefix the branch tests. *)
Lemma mapping_names_retrieve (env : environment) (tool : string) x :
  lookup_str tool (mapping env) = Some x -> startswith tool "retrieve-" = true.
Proof.
  unfold mapping. simpl.
  destruct (String.eqb tool "retrieve-automation-flow-list") eqn:E1;
    [apply String.eqb_eq in E1; subst; reflexivity|].
  destruct (String.eqb tool "retrieve-activity-log-list") eqn:E2;
    [apply String.eqb_eq in E2; subst; reflexivity|].
  destruct (String.eqb tool "retrieve-digital-worker-list") eqn:E3;
    [apply String.eqb_eq in E3; subst; reflexivity|].
  destruct (String.eqb tool "retrieve-session-list") eqn:E4;
    [apply String.eqb_eq in E4; subst; reflexivity|].
  discriminate.
Qed.

(** C1, as the code has it.  For a name that is a work-queue tool, the
    start-flow tool or one of the four listing tools, every failure
    inside the branch is caught and comes back as a text result; the two
    first kinds always return, a listing tool returns unless the walker is
    still running when the fuel is spent.  Any other name, with or
    without the [retrieve-] prefix, raises [ValueError] with the message
    [Unknown tool: <name>] and leaves the state as it was. *)
Theorem handle_call_tool_boundary :
  forall fuel env tool arguments st,
    (dispatchable env st tool = false ->
     handle_call_tool fuel env tool arguments st
     = Some (st, Raise (ValueError ("Unknown tool: " ++ tool))))
    /\ (dispatchable env st tool = true ->
        handle_call_tool fuel env tool arguments st = None
        \/ exists st' s,
            handle_call_tool fuel env tool arguments st
            = Some (st', Return (text_content s)))
    /\ (store_mem (PStr tool) (internal_resources st workqueues) = true
        \/ tool = "start-automation-flow" ->
        exists st' s,
          handle_call_tool fuel env tool arguments st
          = Some (st', Return (text_content s)))
    /\ (handle_call_tool fuel env tool arguments st = None ->
        exists url key fields st1 token,
          lookup_str tool (mapping env) = Some (url, key, fields)
          /\ acquire_token env st = (st1, Return token)
          /\ retrieve_entities fuel env token url key
               (if is_empty arguments then []
                else match arguments with Some d => d | None => [] end) st1
             = None).
Proof.
  intros fuel env tool arguments st.
  unfold dispatchable, handle_call_tool.
  remember (lookup_str tool (mapping env)) as m eqn:M. symmetry in M.
  destruct (store_mem (PStr tool) (internal_resources st workqueues)) eqn:W; simpl.
  { destruct (submit_work_item env tool arguments st) as [st' r].
    destruct (caught_returns "Error creating work queue item: " r) as [s Hs].
    rewrite Hs. repeat split; try discriminate; eauto. }
  destruct (String.eqb tool "start-automation-flow") eqn:S; simpl.
  { destruct (start_automation_flow env arguments st) as [st' r].
    destruct (caught_returns "Error starting automation flow: " r) as [s Hs].
    rewrite Hs. repeat split; try discriminate; eauto. }
  assert (NS : tool <> "start-automation-flow").
  { intros E. subst. discriminate. }
  destruct m as [[[url key] fields]|].
  - rewrite (mapping_names_retrieve env tool _ M).
    unfold retrieve_list. cbv zeta.
    set (args := if is_empty arguments then []
                 else match arguments with Some d => d | None => [] end).
    destruct (acquire_token env st) as [st1 [token|e]].
    + destruct (retrieve_entities fuel env token url key args st1) as [[st2 store]|] eqn:R.
      * destruct (send_resource_list_changed env st2) as [st3 [[]|e]];
          [destruct (format_resource_result store fields) as [txt|e];
           [destruct (get_set_resource arguments) as [flag|e];
            [destruct (truthy flag)|]|]|];
          simpl; (repeat split; try discriminate; eauto);
          intros [?|?]; try discriminate; contradiction.
      * repeat split; try discriminate; eauto.
        -- intros [?|?]; [discriminate|contradiction].
        -- intros _. exists url, key, fields, st1, token. auto.
    + simpl. repeat split; try discriminate; eauto;
        try (intros [?|?]; [discriminate|contradiction]).
  - destruct (startswith tool "retrieve-");
      repeat split; try discriminate; eauto;
      intros [?|?]; try discriminate; contradiction.
Qed.

Lemma handle_call_tool_boundary_witness :
  exists st' s,
    handle_call_tool 0 Examples.env_two_pages "start-automation-flow" None initial_state
    = Some (st', Return (text_content s)).
Proof.
  destruct (handle_call_tool_boundary 0 Examples.env_two_pages "start-automation-flow"
              None initial_state) as [_ [_ [H _]]].
  apply H. right. reflexivity.
Defined.

(** Where the code parts from C1 as written: a name no branch matches
    and a [retrieve-] name outside the table both leave
    [handle_call_tool] as a raised [ValueError], not as a result. *)
Lemma unknown_tool_counterexample :
  handle_call_tool 0 Examples.env_two_pages "launch-rocket" (Some []) initial_state
  = Some (initial_state, Raise (ValueError "Unknown tool: launch-rocket"))
  /\ handle_call_tool 0 Examples.env_two_pages "retrieve-everything" None initial_state
     = Some (initial_state, Raise (ValueError "Unknown tool: retrieve-everything")).
Proof. split; reflexivity. Qed.

(** ** Publishing *)

(** The walker never touches the published stores. *)
Lemma retrieve_loop_resources (env : environment) (token : string) (key : kind) :
  forall fuel url params st,
    resources (fst (retrieve_loop fuel env token key url params st)) = resources st.
Proof.
  induction fuel as [|fuel IH]; intros url params st; simpl; [reflexivity|].
  unfold async_request.
  destruct (respond env (history st) (GET url token params)) as [response|e]; simpl;
    [|reflexivity].
  destruct (process_page response url _) as [store' [url' params'| |e]]; simpl;
    try reflexivity.
  rewrite IH. reflexivity.
Qed.

(** What [retrieve_entities] hands back is the staging mapping itself. *)
Lemma retrieve_entities_frame fuel env token url key args st st' store :
  retrieve_entities fuel env token url key args st = Some (st', store) ->
  store = internal_resources st' key /\ resources st' = resources st.
Proof.
  unfold retrieve_entities.
  pose proof (retrieve_loop_resources env token key fuel url (walker_params args)
                (set_internal key [] st)) as R.
  destruct (retrieve_loop fuel env token key url (walker_params args)
              (set_internal key [] st)) as [st2 [|]]; [|discriminate].
  intros H. inversion H; subst. split; [reflexivity|exact R].
Qed.

Lemma acquire_token_frame env st st' r :
  acquire_token env st = (st', r) ->
  internal_resources st' = internal_resources st /\ resources st' = resources st.
Proof.
  unfold acquire_token, get_access_token.
  destruct (fetch_token env (history st)) as [token|e].
  - destruct (String.eqb token ""); intros H; inversion H; subst; split; reflexivity.
  - intros H; inversion H; subst; split; reflexivity.
Qed.

Lemma send_resource_list_changed_frame env st st' r :
  send_resource_list_changed env st = (st', r) ->
  internal_resources st' = internal_resources st /\ resources st' = resources st.
Proof.
  unfold send_resource_list_changed.
  destruct (session env (history st)); intros H; inversion H; subst; split; reflexivity.
Qed.

Lemma args_of_some (d : pydict) :
  (if is_empty (Some d) then [] else d) = d.
Proof. destruct d; reflexivity. Qed.

(** The retrieve branch leaves the published stores alone unless it
    reaches the [set_resource] test with a truthy flag. *)
Lemma retrieve_list_no_publish fuel env url key fields arguments st st' r :
  match arguments with
  | Some a => truthy (dict_get a "set_resource" PNone) = false
  | None => True
  end ->
  retrieve_list fuel env url key fields arguments st = Some (st', r) ->
  resources st' = resources st.
Proof.
  intros Flag. unfold retrieve_list. cbv zeta.
  set (args := if is_empty arguments then []
               else match arguments with Some d => d | None => [] end).
  destruct (acquire_token env st) as [st1 [token|e]] eqn:A;
    destruct (acquire_token_frame _ _ _ _ A) as [_ R1];
    [|intros H; inversion H; subst; exact R1].
  destruct (retrieve_entities fuel env token url key args st1) as [[st2 store]|] eqn:E;
    [|discriminate].
  destruct (retrieve_entities_frame _ _ _ _ _ _ _ _ _ E) as [_ R2].
  destruct (send_resource_list_changed env st2) as [st3 [[]|e]] eqn:N;
    destruct (send_resource_list_changed_frame _ _ _ _ N) as [_ R3];
    [|intros H; inversion H; subst; congruence].
  destruct (format_resource_result store fields) as [txt|e];
    [|intros H; inversion H; subst; congruence].
  destruct arguments as [a|]; simpl.
  - rewrite Flag. intros H; inversion H; subst; congruence.
  - intros H; inversion H; subst; congruence.
Qed.

(** C5, as the code has it.  For a listing tool that no work-queue tool
    shadows: when the call carries [set_resource: true], the credential
    is acquired, the walker returns, the notification does not fail and
    the listing can be formatted, the call returns the listing behind the
    notice [Resource refreshed. ] and the published mapping of that kind
    then equals the staging mapping, the other kinds keeping theirs.
    When [set_resource] is false or absent (or there are no arguments),
    a call that returns leaves every published mapping as it was. *)
Theorem set_resource_publishes_snapshot :
  forall fuel env tool url key fields st,
    store_mem (PStr tool) (internal_resources st workqueues) = false ->
    lookup_str tool (mapping env) = Some (url, key, fields) ->
    (forall d st1 token st2 store st3 listing,
        dict_get d "set_resource" PNone = PBool true ->
        acquire_token env st = (st1, Return token) ->
        retrieve_entities fuel env token url key d st1 = Some (st2, store) ->
        send_resource_list_changed env st2 = (st3, Return tt) ->
        format_resource_result store fields = Return listing ->
        exists st',
          handle_call_tool fuel env tool (Some d) st
          = Some (st', Return (text_content
                                 ("Resource refreshed. Retrieved "
                                  ++ str_of_nat (List.length store) ++ " "
                                  ++ kind_name key ++ "." ++ str1 lf ++ listing)))
          /\ resources st' key = internal_resources st' key
          /\ resources st' key = store
          /\ (forall k, k <> key -> resources st' k = resources st k))
    /\ (forall arguments st' r,
           match arguments with
           | Some a => truthy (dict_get a "set_resource" PNone) = false
           | None => True
           end ->
           handle_call_tool fuel env tool arguments st = Some (st', r) ->
           resources st' = resources st).
Proof.
  intros fuel env tool url key fields st W M.
  assert (NS : String.eqb tool "start-automation-flow" = false).
  { destruct (String.eqb tool "start-automation-flow") eqn:E; [|reflexivity].
    apply String.eqb_eq in E. subst. discriminate. }
  pose proof (mapping_names_retrieve env tool _ M) as P.
  split.
  - intros d st1 token st2 store st3 listing Flag A E N F.
    unfold handle_call_tool. rewrite W, NS, P, M.
    unfold retrieve_list. cbv zeta. rewrite args_of_some, A, E, N, F.
    simpl. rewrite Flag. simpl.
    destruct (retrieve_entities_frame _ _ _ _ _ _ _ _ _ E) as [S2 R2].
    destruct (send_resource_list_changed_frame _ _ _ _ N) as [I3 R3].
    destruct (acquire_token_frame _ _ _ _ A) as [_ R1].
    eexists. split; [reflexivity|]. simpl. rewrite upd_same.
    split; [reflexivity|]. split; [rewrite I3; auto|].
    intros k Hk. rewrite upd_other by congruence. congruence.
  - intros arguments st' r Flag.
    unfold handle_call_tool. rewrite W, NS, P, M.
    destruct (retrieve_list fuel env url key fields arguments st) as [[st'' r']|] eqn:R;
      [|discriminate].
    intros H. inversion H; subst.
    eapply retrieve_list_no_publish; eauto.
Qed.

Lemma set_resource_publishes_snapshot_witness :
  exists st' listing,
    Examples.publish_call Examples.env_two_pages
    = Some (st', Return (text_content listing))
    /\ resources st' automationflows = internal_resources st' automationflows.
Proof.
  destruct (set_resource_publishes_snapshot
              5 Examples.env_two_pages "retrieve-automation-flow-list"
              Examples.listing_url automationflows ["name"; "description"]
              initial_state eq_refl eq_refl) as [H _].
  edestruct (H [("set_resource", PBool true)]) as [st' [E [R _]]];
    [reflexivity | reflexivity | reflexivity | reflexivity | reflexivity |].
  exists st'. eexists. split; [exact E | exact R].
Defined.

(** Where the code parts from C5 as written.  Each of these calls asks
    for [set_resource: true], returns an error text, and leaves the
    published mapping empty while the staging mapping is not: the second
    of two calls, when the token endpoint has gone down; a call whose
    listing holds a null field, which [join] refuses; a call whose
    notification fails. *)
Lemma set_resource_counterexample :
  Examples.outcome Examples.two_calls
  = Some (Return (text_content "Error automationflows: (invalid_client)"),
          [(PStr "a", Examples.flow_a')], [])
  /\ Examples.outcome (Examples.publish_call Examples.env_null_field)
     = Some (Return (text_content
               "Error automationflows: sequence item 2: expected str instance, NoneType found"),
             [(PStr "c", Examples.flow_c)], [])
  /\ Examples.outcome (Examples.publish_call Examples.env_closed_session)
     = Some (Return (text_content "Error automationflows: "),
             [(PStr "a", Examples.flow_a')], []).
Proof. repeat split. Qed.

(** ** Work-queue submission *)

(** Both payloads parse the priority, and the one sent carries it. *)
Lemma logged_payload_priority (config : pydict) (arguments : pydict) (body : pyval) :
  logged_payload (PDict config) arguments = Return body ->
  exists z, py_int (configured_priority config) = Return z.
Proof.
  unfold logged_payload, configured_priority. simpl.
  destruct (py_int _) as [z|e]; [eauto|discriminate].
Qed.


(** A submission that fails once the token has been asked for. *)
Ltac fails_after_token :=
  intros H; inversion H; subst; right; left; split; [reflexivity|eauto].

(** What a submission does to the world: nothing when the arguments are
    missing, a token request when anything fails before the payload is
    complete, and otherwise a token request followed by one POST of the
    payload. *)
Lemma submit_work_item_cases env tool arguments st st' r :
  submit_work_item env tool arguments st = (st', r) ->
  (history st' = history st /\ exists e, r = Raise e)
  \/ (history st' = (history st ++ [EvToken])%list /\ exists e, r = Raise e)
  \/ (exists args token config queue_id logged body,
         arguments = Some args
         /\ store_get (PStr tool) (internal_resources st workqueues) = Some config
         /\ py_item config "workqueueid" = Return queue_id
         /\ logged_payload config args = Return logged
         /\ sent_payload config args = Return body
         /\ history st'
            = (history st
                 ++ [EvToken;
                     EvRequest (POST (fmt_opt (BASE_URL env) ++ "/work-queues/"
                                      ++ py_str queue_id ++ "/items")
                                     token (Some body))])%list).
Proof.
  unfold submit_work_item.
  destruct arguments as [[|a args]|];
    try (intros H; inversion H; subst; left; split; [reflexivity|eauto]).
  unfold acquire_token, get_access_token.
  destruct (fetch_token env (history st)) as [token|e];
    [destruct (String.eqb token "")|];
    try (fails_after_token).
  simpl.
  destruct (store_get (PStr tool) (internal_resources st workqueues)) as [config|] eqn:C;
    [|fails_after_token].
  destruct (py_item config "workqueueid") as [queue_id|e] eqn:Q; simpl;
    [|fails_after_token].
  destruct (logged_payload config (a :: args)) as [logged|e] eqn:L; simpl;
    [|fails_after_token].
  destruct (sent_payload config (a :: args)) as [body|e] eqn:B; simpl;
    [|fails_after_token].
  intros H. right. right.
  exists (a :: args), token, config, queue_id, logged, body.
  do 5 (split; [assumption || reflexivity|]).
  unfold async_request in H. simpl in H.
  destruct (respond env _ _); inversion H; subst; simpl;
    rewrite <- app_assoc; reflexivity.
Qed.

Lemma store_mem_get (k : pyval) (s : pystore) (v : pyval) :
  store_get k s = Some v -> store_mem k s = true.
Proof. unfold store_mem. intros H. rewrite H. reflexivity. Qed.



(** The three submissions of [Examples]: the priorities of the bodies
    sent, and the text returned. *)
Example submissions :
  Examples.sent_priorities (Examples.submit "enqueue-default")
  = Some ([PInt 100], Return (text_content "Work queue item created: item-1"))
  /\ Examples.sent_priorities (Examples.submit "enqueue-50")
     = Some ([PInt 50], Return (text_content "Work queue item created: item-1"))
  /\ Examples.sent_priorities (Examples.submit "enqueue-abc")
     = Some ([], Return (text_content
          "Error creating work queue item: invalid literal for int() with base 10: 'abc'")).
Proof. repeat split. Qed.

(** ** Loading the tools table *)

Lemma row_tool_name env row t :
  row_tool env row = Return t -> dict_item row "name" = Return (PStr (name t)).
Proof.
  unfold row_tool.
  destruct (dict_item row "name") as [n|e]; [|discriminate]. simpl.
  destruct (dict_item row "description") as [d|e]; [|discriminate]. simpl.
  destruct (dict_item row "inputSchema") as [s|e]; [|discriminate]. simpl.
  destruct (py_json_loads env s) as [v|e]; [|discriminate]. simpl.
  unfold Tool_init.
  destruct n; try discriminate.
  destruct d; try discriminate; destruct v; try discriminate;
    intros H; inversion H; reflexivity.
Qed.

Lemma dict_item_get row k v :
  dict_item row k = Return v -> dict_get row k PNone = v.
Proof.
  unfold dict_item, dict_get. destruct (assoc k row); intros H; inversion H; reflexivity.
Qed.

(** A row whose input shape [json.loads] rejects yields no tool. *)
Lemma invalid_json_row env row s e :
  assoc "inputSchema" row = Some (PStr s) ->
  json_loads env s = Raise e ->
  exists e', row_tool env row = Raise e'.
Proof.
  intros A J. unfold row_tool.
  destruct (dict_item row "name") as [n|e1]; [|simpl; eauto]. simpl.
  destruct (dict_item row "description") as [d|e2]; [|simpl; eauto]. simpl.
  unfold dict_item. rewrite A. simpl. rewrite J. simpl. eauto.
Qed.

(** Rows that parse are appended and registered in turn. *)
Lemma load_rows_good env good ts :
  Forall2 (fun row t => row_tool env row = Return t) good ts ->
  forall more tools lookup,
    load_rows env (good ++ more)%list tools lookup
    = load_rows env more (tools ++ ts)%list (fold_left register good lookup).
Proof.
  induction 1 as [|row t good ts R F IH]; intros more tools lookup; simpl.
  - rewrite app_nil_r. reflexivity.
  - rewrite R. pose proof (row_tool_name _ _ _ R) as N. rewrite N. simpl.
    rewrite IH. rewrite <- app_assoc. simpl.
    replace (register lookup row) with (store_put (PStr (name t)) (PDict row) lookup)
      by (unfold register; rewrite (dict_item_get _ _ _ N); reflexivity).
    reflexivity.
Qed.

Lemma Forall_exists_Forall2 {A B} (P : A -> B -> Prop) (l : list A) :
  Forall (fun a => exists b, P a b) l -> exists l', Forall2 P l l'.
Proof.
  induction 1 as [|a l [b Hb] F [l' IH]].
  - exists []. constructor.
  - exists (b :: l'). constructor; assumption.
Qed.

(** A name no registered row carries reads as before. *)
Lemma store_get_register_other (n : pyval) (rows : list pydict) :
  forall lookup,
    (forall row, In row rows -> key_eqb n (dict_get row "name" PNone) = false) ->
    store_get n (fold_left register rows lookup) = store_get n lookup.
Proof.
  induction rows as [|row rows IH]; intros lookup H; simpl; [reflexivity|].
  rewrite IH by (intros r Hr; apply H; right; exact Hr).
  unfold register. rewrite store_get_put. rewrite (H row (or_introl eq_refl)).
  reflexivity.
Qed.

(** A registered row's name is in the lookup. *)
Lemma store_mem_register (rows : list pydict) :
  forall lookup row t env,
    In row rows -> row_tool env row = Return t ->
    store_mem (PStr (name t)) (fold_left register rows lookup) = true.
Proof.
  induction rows as [|r rows IH]; intros lookup row t env I R; [destruct I|].
  simpl. destruct I as [E|I].
  - subst r. clear IH. unfold store_mem.
    assert (G : forall rs lk, store_get (PStr (name t)) lk <> None ->
                              store_get (PStr (name t)) (fold_left register rs lk) <> None).
    { induction rs as [|r rs IHr]; intros lk H; simpl; [exact H|].
      apply IHr. unfold register. rewrite store_get_put.
      destruct (key_eqb _ _); [discriminate|exact H]. }
    specialize (G rows (register lookup row)).
    destruct (store_get (PStr (name t)) (fold_left register rows (register lookup row)));
      [reflexivity|].
    exfalso. apply G; [|reflexivity].
    unfold register. rewrite store_get_put.
    rewrite (dict_item_get _ _ _ (row_tool_name _ _ _ R)). simpl.
    rewrite String.eqb_refl. discriminate.
  - eapply IH; eauto.
Qed.

(** C7.  When the rows before a row with an invalid JSON input shape all
    parse, [load_tools_from_csv] returns the descriptors of exactly those
    rows, in order; the work-queue lookup gains those rows, each under
    its name, and nothing else: a name none of them carries reads as it
    did before the load, and the other stores are untouched. *)
Theorem load_stops_at_invalid_json :
  forall env filepath st good bad rest s e,
    csv_rows env filepath = Return (good ++ bad :: rest)%list ->
    Forall (fun row => exists t, row_tool env row = Return t) good ->
    assoc "inputSchema" bad = Some (PStr s) ->
    json_loads env s = Raise e ->
    exists st' tools,
      load_tools_from_csv env filepath st = (st', tools)
      /\ Forall2 (fun row t => row_tool env row = Return t) good tools
      /\ internal_resources st' workqueues
         = fold_left register good (internal_resources st workqueues)
      /\ (forall row t, In row good -> row_tool env row = Return t ->
            store_mem (PStr (name t)) (internal_resources st' workqueues) = true)
      /\ (forall n,
            (forall row, In row good -> key_eqb n (dict_get row "name" PNone) = false) ->
            store_get n (internal_resources st' workqueues)
            = store_get n (internal_resources st workqueues))
      /\ (forall k, k <> workqueues -> internal_resources st' k = internal_resources st k)
      /\ resources st' = resources st.
Proof.
  intros env filepath st good bad rest s e C G A J.
  destruct (Forall_exists_Forall2 _ _ G) as [tools F].
  destruct (invalid_json_row _ _ _ _ A J) as [e' B].
  unfold load_tools_from_csv. rewrite C.
  rewrite (load_rows_good _ _ _ F). simpl. rewrite B.
  eexists. eexists. split; [reflexivity|].
  split; [exact F|]. simpl. rewrite upd_same.
  split; [reflexivity|].
  split; [intros row t I R; eapply store_mem_register; eauto|].
  split; [intros n H; apply store_get_register_other; exact H|].
  split; [intros k Hk; apply upd_other; congruence|reflexivity].
Qed.

Lemma load_stops_at_invalid_json_witness :
  exists st' tools,
    load_tools_from_csv Examples.env_broken_table "workqueues.csv" initial_state
    = (st', tools)
    /\ Forall2 (fun row t => row_tool Examples.env_broken_table row = Return t)
               [Examples.row "enqueue-default" "" "{}"] tools
    /\ internal_resources st' workqueues
       = fold_left register [Examples.row "enqueue-default" "" "{}"]
                   (internal_resources initial_state workqueues).
Proof.
  destruct (load_stops_at_invalid_json
              Examples.env_broken_table "workqueues.csv" initial_state
              [Examples.row "enqueue-default" "" "{}"]
              (Examples.row "enqueue-broken" "50" "{'type': object")
              [Examples.row "enqueue-abc" "abc" "{}"]
              "{'type': object"
              (Exn "JSONDecodeError" "Expecting value: line 1 column 1 (char 0)"))
    as [st' [tools [E [F [L _]]]]];
    [reflexivity
    |constructor; [eexists; reflexivity|constructor]
    |reflexivity
    |reflexivity
    |].
  exists st', tools. split; [exact E|]. split; [exact F|exact L].
Defined.

(** The broken table of [Examples]: one descriptor comes back and one
    row is registered, although the third row is sound. *)
Example broken_table_loaded :
  (let (st', tools) :=
     load_tools_from_csv Examples.env_broken_table "workqueues.csv" initial_state in
   (map name tools, internal_resources st' workqueues))
  = (["enqueue-default"],
     [(PStr "enqueue-default", PDict (Examples.row "enqueue-default" "" "{}"))]).
Proof. reflexivity. Qed.

(** ** Reading a resource *)

(** C9, as the code has it.  A detail request that fails, after the
    scheme was accepted and the token granted, comes back as the text of
    the JSON object [{"error": <message>}], the stores being left alone.
    A scheme outside the table raises [ValueError] naming the scheme,
    before anything is asked of the outside. *)
Theorem handle_read_resource_failures :
  forall env uri st,
    (lookup_str (scheme uri) (scheme_to_url env) = None ->
     handle_read_resource env uri st
     = (st, Raise (ValueError ("Unsupported URI scheme: " ++ scheme uri))))
    /\ (forall base p token e,
          lookup_str (scheme uri) (scheme_to_url env) = Some base ->
          path uri = Some p ->
          fetch_token env (history st) = Return token ->
          respond env (history st ++ [EvToken])%list
                  (detail_request (detail_url base uri p) token) = Raise e ->
          exists st',
            handle_read_resource env uri st
            = (st', Return (json_dumps env true (PDict [("error", PStr (exn_msg e))])))
            /\ history st'
               = (history st
                    ++ [EvToken;
                        EvRequest (detail_request (detail_url base uri p) token)])%list
            /\ internal_resources st' = internal_resources st
            /\ resources st' = resources st).
Proof.
  intros env uri st. split.
  - intros H. unfold handle_read_resource. rewrite H. reflexivity.
  - intros base p token e H P T R.
    unfold handle_read_resource, get_access_token, async_request.
    rewrite H, P, T. simpl. rewrite R.
    eexists. split; [reflexivity|]. simpl. rewrite <- app_assoc.
    repeat split.
Qed.

Lemma handle_read_resource_failures_witness :
  exists st',
    handle_read_resource Examples.env_api_down Examples.log_uri initial_state
    = (st', Return (json_dumps Examples.env_api_down true
                      (PDict [("error", PStr "Cannot connect to host")])))
    /\ history st'
       = [EvToken;
          EvRequest (detail_request
                       "https://api.example/automation-flows/executions/run-7/logs" "tok")].
Proof.
  destruct (handle_read_resource_failures Examples.env_api_down Examples.log_uri
              initial_state) as [_ H].
  destruct (H "https://api.example/automation-flows/executions" "/run-7" "tok"
              Script.ConnectionError eq_refl eq_refl eq_refl eq_refl)
    as [st' [E [Hh _]]].
  exists st'. split; [exact E|exact Hh].
Defined.

(** Where the code parts from C9 as written: a scheme outside the table
    and a token endpoint that is down both leave [handle_read_resource]
    as a raised exception, not as a text payload. *)
Lemma read_resource_counterexample :
  snd (handle_read_resource Examples.env_api_down Examples.ftp_uri initial_state)
  = Raise (ValueError "Unsupported URI scheme: ftp")
  /\ snd (handle_read_resource Examples.env_oauth_down Examples.flow_uri initial_state)
     = Raise Script.ConnectionError.
Proof. split; reflexivity. Qed.

(** ** Listing without arguments *)

(** C10.  A listing tool called with no arguments object never returns
    the listing: whenever the call returns, it returns a text starting
    with [Error ], and every published mapping is as before.  When no
    work-queue tool shadows the name, the credential is acquired and the
    walker returns, the staging mapping of the kind is the one the walker
    has rebuilt from empty; and when moreover the notification and the
    formatting go through, the message is that of reading [get] on
    [None], the failed read of [set_resource]. *)
Theorem listing_without_arguments :
  forall fuel env tool url key fields st,
    lookup_str tool (mapping env) = Some (url, key, fields) ->
    (forall st' r,
        handle_call_tool fuel env tool None st = Some (st', r) ->
        (exists msg, r = Return (text_content ("Error " ++ msg)))
        /\ resources st' = resources st)
    /\ (store_mem (PStr tool) (internal_resources st workqueues) = false ->
        forall st1 token st2 store,
          acquire_token env st = (st1, Return token) ->
          retrieve_entities fuel env token url key [] st1 = Some (st2, store) ->
          exists st' msg,
            handle_call_tool fuel env tool None st
            = Some (st', Return (text_content
                                   (("Error " ++ kind_name key ++ ": ") ++ msg)))
            /\ internal_resources st' key = store
            /\ store = internal_resources
                         (fst (retrieve_loop fuel env token key url []
                                 (set_internal key [] st1))) key
            /\ resources st' = resources st
            /\ (forall st3 listing,
                   send_resource_list_changed env st2 = (st3, Return tt) ->
                   format_resource_result store fields = Return listing ->
                   msg = "'NoneType' object has no attribute 'get'")).
Proof.
  intros fuel env tool url key fields st M.
  assert (NS : String.eqb tool "start-automation-flow" = false).
  { destruct (String.eqb tool "start-automation-flow") eqn:E; [|reflexivity].
    apply String.eqb_eq in E. subst. discriminate. }
  pose proof (mapping_names_retrieve env tool _ M) as P.
  split.
  - intros st' r. unfold handle_call_tool.
    destruct (store_mem (PStr tool) (internal_resources st workqueues)).
    { simpl. intros H. inversion H; subst. split; [|reflexivity].
      eexists. reflexivity. }
    rewrite NS, P, M.
    destruct (retrieve_list fuel env url key fields None st) as [[st'' r']|] eqn:R;
      [|discriminate].
    intros H. inversion H; subst. split.
    + clear H. unfold retrieve_list in R. cbv zeta in R. simpl in R.
      destruct (acquire_token env st) as [st1 [token|e]];
        [|inversion R; subst; simpl; eexists; reflexivity].
      destruct (retrieve_entities fuel env token url key [] st1) as [[st2 store]|];
        [|discriminate].
      destruct (send_resource_list_changed env st2) as [st3 [[]|e]];
        [|inversion R; subst; simpl; eexists; reflexivity].
      destruct (format_resource_result store fields) as [txt|e];
        inversion R; subst; simpl; eexists; reflexivity.
    + eapply (retrieve_list_no_publish _ _ _ _ _ None); [exact I|exact R].
  - intros W st1 token st2 store A E.
    unfold handle_call_tool. rewrite W, NS, P, M.
    unfold retrieve_list. cbv zeta. simpl. rewrite A, E.
    destruct (retrieve_entities_frame _ _ _ _ _ _ _ _ _ E) as [S2 R2].
    destruct (acquire_token_frame _ _ _ _ A) as [_ R1].
    assert (S0 : store = internal_resources
                           (fst (retrieve_loop fuel env token key url []
                                   (set_internal key [] st1))) key).
    { unfold retrieve_entities in E.
      change (walker_params []) with (@nil (string * pyval)) in E.
      destruct (retrieve_loop fuel env token key url [] (set_internal key [] st1))
        as [s [|]]; [|discriminate].
      inversion E; subst. reflexivity. }
    destruct (send_resource_list_changed env st2) as [st3 [[]|e]] eqn:N;
      destruct (send_resource_list_changed_frame _ _ _ _ N) as [I3 R3].
    + destruct (format_resource_result store fields) as [txt|e] eqn:F; simpl.
      * eexists. eexists. split; [reflexivity|].
        split; [rewrite I3; auto|]. split; [exact S0|].
        split; [congruence|]. intros; reflexivity.
      * eexists. eexists. split; [reflexivity|].
        split; [rewrite I3; auto|]. split; [exact S0|].
        split; [congruence|]. intros st3' listing H1 H2. discriminate.
    + simpl. eexists. eexists. split; [reflexivity|].
      split; [rewrite I3; auto|]. split; [exact S0|].
      split; [congruence|]. intros st3' listing H1 H2. discriminate.
Qed.

Lemma listing_without_arguments_witness :
  exists st',
    handle_call_tool 5 Examples.env_two_pages "retrieve-automation-flow-list" None
                     initial_state
    = Some (st', Return (text_content
                           ("Error automationflows: "
                            ++ "'NoneType' object has no attribute 'get'")))
    /\ internal_resources st' automationflows
       = [(PStr "a", Examples.flow_a'); (PStr "b", Examples.flow_b)]
    /\ resources st' = resources initial_state.
Proof.
  destruct (listing_without_arguments
              5 Examples.env_two_pages "retrieve-automation-flow-list"
              Examples.listing_url automationflows ["name"; "description"]
              initial_state eq_refl) as [_ H].
  edestruct (H eq_refl) as [st' [msg [E [S [_ [R M]]]]]];
    [reflexivity | reflexivity |].
  exists st'. split; [|split; [exact S|exact R]].
  rewrite E. rewrite (M _ _ eq_refl eq_refl). reflexivity.
Defined.

(** * Further properties *)

(** ** What the walker leaves alone *)

Section Walker.

Variables (env : environment) (token : string) (key : kind).

Lemma retrieve_loop_other_kinds :
  forall fuel url params st k,
    k <> key ->
    internal_resources (fst (retrieve_loop fuel env token key url params st)) k
    = internal_resources st k.
Proof.
  induction fuel as [|fuel IH]; intros url params st k Hk; simpl; [reflexivity|].
  unfold async_request.
  destruct (respond env (history st) (GET url token params)) as [response|e]; simpl;
    [|reflexivity].
  destruct (process_page response url _) as [store' [url' params'| |e]]; simpl;
    try (apply upd_other; congruence).
  rewrite IH by exact Hk. simpl. apply upd_other. congruence.
Qed.

(** X1.  However many passes the walker makes, and whether or not it
    has returned, it changes no published mapping and no staging mapping
    but the one of its kind; when it returns, what it returns is that
    staging mapping. *)
Theorem walker_touches_one_store :
  forall fuel url args st,
    let run := retrieve_loop fuel env token key url (walker_params args)
                 (set_internal key [] st) in
    resources (fst run) = resources st
    /\ (forall k, k <> key -> internal_resources (fst run) k = internal_resources st k)
    /\ (forall st' store,
           retrieve_entities fuel env token url key args st = Some (st', store) ->
           st' = fst run /\ store = internal_resources st' key).
Proof.
  intros fuel url args st run. split; [|split].
  - unfold run. rewrite retrieve_loop_resources. reflexivity.
  - intros k Hk. unfold run. rewrite retrieve_loop_other_kinds by exact Hk.
    simpl. apply upd_other. congruence.
  - intros st' store. unfold retrieve_entities. fold run.
    destruct run as [s [|]]; [|discriminate].
    intros H. inversion H; subst. split; reflexivity.
Qed.

End Walker.

(** ** The shape of a staging mapping *)

Lemma key_eqb_refl (k : pyval) : hashable k = true -> key_eqb k k = true.
Proof.
  destruct k; simpl; try discriminate; intros _; try reflexivity.
  - destruct b; reflexivity.
  - apply Z.eqb_refl.
  - apply String.eqb_refl.
Qed.

Lemma store_mem_put_other (k k' v : pyval) (s : pystore) :
  key_eqb k k' = false -> store_mem k (store_put k' v s) = store_mem k s.
Proof. intros H. unfold store_mem. rewrite store_get_put, H. reflexivity. Qed.

Lemma store_put_keys_distinct (k v : pyval) (s : pystore) :
  keys_distinct s = true -> keys_distinct (store_put k v s) = true.
Proof.
  induction s as [|[k'' v''] s IH]; simpl; [reflexivity|].
  intros H. apply andb_prop in H. destruct H as [M D].
  destruct (key_eqb k k'') eqn:E; simpl.
  - rewrite M, D. reflexivity.
  - rewrite store_mem_put_other by (rewrite key_eqb_sym; exact E).
    rewrite M, (IH D). reflexivity.
Qed.

Lemma store_put_filed (k v : pyval) (s : pystore) :
  hashable k = true -> truthy k = true -> id_of v = k ->
  forallb filed_under_id s = true ->
  forallb filed_under_id (store_put k v s) = true.
Proof.
  intros Hh Ht Hi. induction s as [|[k'' v''] s IH]; simpl.
  - intros _. unfold filed_under_id. simpl. rewrite Hi, Ht, (key_eqb_refl k Hh).
    reflexivity.
  - intros H. apply andb_prop in H. destruct H as [F R].
    destruct (key_eqb k k'') eqn:E; simpl.
    + rewrite R. unfold filed_under_id. simpl. rewrite Hi, Ht.
      rewrite key_eqb_sym, E. reflexivity.
    + rewrite F, (IH R). reflexivity.
Qed.

Lemma merge_item_walker_store (item : pyval) (s s' : pystore) :
  merge_item item s = Return s' -> walker_store s -> walker_store s'.
Proof.
  unfold merge_item.
  destruct item as [| | | | |d]; try discriminate. simpl.
  destruct (dict_get d "entity" (PDict d)) as [| | | | |d'] eqn:E; try discriminate.
  simpl. destruct (truthy (dict_get d' "id" PNone)) eqn:T.
  - unfold store_set. destruct (hashable (dict_get d' "id" PNone)) eqn:Hh; [|discriminate].
    intros H [D F]. inversion H; subst. split.
    + apply store_put_keys_distinct. exact D.
    + apply store_put_filed; auto.
  - intros H I. inversion H; subst. exact I.
Qed.

Lemma merge_items_walker_store (l : list pyval) :
  forall s, walker_store s -> walker_store (fst (merge_items l s)).
Proof.
  induction l as [|item l IH]; intros s I; simpl; [exact I|].
  destruct (merge_item item s) as [s'|e] eqn:M; [|exact I].
  apply IH. eapply merge_item_walker_store; eauto.
Qed.

Lemma process_page_walker_store (response : pyval) (url : string) (s : pystore) :
  walker_store s -> walker_store (fst (process_page response url s)).
Proof.
  intros I. unfold process_page.
  destruct (page_items response) as [items|e]; [|exact I].
  destruct (py_iter items) as [l|e]; [|exact I].
  pose proof (merge_items_walker_store l s I) as I'.
  destruct (merge_items l s) as [s' [e|]]; simpl in *; [exact I'|].
  destruct (next_page_token response) as [t|e]; [|exact I'].
  destruct (advance url t) as [[u p]|]; exact I'.
Qed.

Lemma retrieve_loop_walker_store (env : environment) (token : string) (key : kind) :
  forall fuel url params st,
    walker_store (internal_resources st key) ->
    walker_store (internal_resources
                    (fst (retrieve_loop fuel env token key url params st)) key).
Proof.
  induction fuel as [|fuel IH]; intros url params st I; simpl; [exact I|].
  unfold async_request.
  destruct (respond env (history st) (GET url token params)) as [response|e]; simpl;
    [|exact I].
  pose proof (process_page_walker_store response url _ I) as I'.
  destruct (process_page response url _) as [store' [url' params'| |e]]; simpl in *.
  - apply IH. simpl. rewrite upd_same. exact I'.
  - rewrite upd_same. exact I'.
  - rewrite upd_same. exact I'.
Qed.

(** X2.  The staging mapping the walker is building, after any number of
    passes and however the walk ends (also in the [except] clause, in the
    middle of a page), holds pairwise different keys, and every entry
    holds an entity under that entity's own non-empty id. *)
Theorem staging_keys_are_ids :
  forall fuel env token url key args st,
    walker_store
      (internal_resources
         (fst (retrieve_loop fuel env token key url (walker_params args)
                 (set_internal key [] st))) key)
    /\ (forall st' store,
           retrieve_entities fuel env token url key args st = Some (st', store) ->
           walker_store store).
Proof.
  intros fuel env token url key args st.
  assert (I : walker_store
                (internal_resources
                   (fst (retrieve_loop fuel env token key url (walker_params args)
                           (set_internal key [] st))) key)).
  { apply retrieve_loop_walker_store. simpl. rewrite upd_same. split; reflexivity. }
  split; [exact I|].
  intros st' store. unfold retrieve_entities.
  destruct (retrieve_loop fuel env token key url (walker_params args)
              (set_internal key [] st)) as [s [|]]; [|discriminate].
  intros H. inversion H; subst. exact I.
Qed.

(** ** The requests of a walk *)






(** X4.  The walker has no page limit: against an API that answers
    every request with a well-formed page carrying a continuation it is
    still running after any number of passes. *)
Theorem walker_has_no_page_limit :
  forall env token,
    (forall h u p, exists page,
        respond env h (GET u token p) = Return page
        /\ well_formed_page page = true
        /\ page_next u page <> None) ->
    forall fuel url key args st,
      retrieve_entities fuel env token url key args st = None.
Proof.
  intros env token H fuel url key args st.
  assert (L : forall fuel url params st,
             snd (retrieve_loop fuel env token key url params st) = false).
  { clear fuel url args st.
    induction fuel as [|fuel IH]; intros url params st; simpl; [reflexivity|].
    unfold async_request.
    destruct (H (history st) url params) as [page [R [W N]]].
    rewrite R. simpl. rewrite (process_page_well_formed _ _ _ W).
    destruct (page_next url page) as [[u p]|]; [|contradiction].
    simpl. apply IH. }
  unfold retrieve_entities.
  specialize (L fuel url (walker_params args) (set_internal key [] st)).
  destruct (retrieve_loop fuel env token key url (walker_params args)
              (set_internal key [] st)) as [s [|]]; [discriminate|reflexivity].
Qed.

Lemma walker_has_no_page_limit_witness :
  retrieve_entities 1000 Examples.env_endless "tok" Examples.listing_url
                    automationflows [] initial_state = None.
Proof.
  apply (walker_has_no_page_limit Examples.env_endless "tok").
  intros h u p. exists Examples.page_token.
  split; [reflexivity|]. split; [reflexivity|].
  unfold page_next. simpl. discriminate.
Defined.

(** ** The formatter *)

Lemma join_parts_strings (l : list pyval) :
  forall i, forallb is_string l = true -> join_parts i l = Return (map py_str l).
Proof.
  induction l as [|v l IH]; intros i H; simpl in *; [reflexivity|].
  apply andb_prop in H. destruct H as [V R].
  destruct v; try discriminate. rewrite (IH (S i) R). reflexivity.
Qed.

Lemma join_parts_not_strings (l : list pyval) :
  forall i, forallb is_string l = false -> exists e, join_parts i l = Raise e.
Proof.
  induction l as [|v l IH]; intros i H; simpl in *; [discriminate|].
  destruct v; simpl in *; try (eexists; reflexivity).
  destruct (IH (S i) H) as [e He]. rewrite He. simpl. eauto.
Qed.

Lemma get_fields_dict (d : pydict) (fields : list string) :
  get_fields (PDict d) fields
  = Return (map (fun f => dict_get d f (PStr "")) fields).
Proof.
  induction fields as [|f fields IH]; simpl; [reflexivity|].
  rewrite IH. reflexivity.
Qed.

Lemma forallb_map {A B} (f : A -> B) (p : B -> bool) (l : list A) :
  forallb p (map f l) = forallb (fun a => p (f a)) l.
Proof. induction l as [|a l IH]; simpl; [reflexivity|]. rewrite IH. reflexivity. Qed.

(** One row of the table. *)
Lemma format_row_cases (fields : list string) (k v : pyval) :
  let line := row <- get_fields v fields ;; py_join "|" (k :: row) in
  (printable fields (k, v) = true -> line = Return (render fields (k, v)))
  /\ (printable fields (k, v) = false -> exists e, line = Raise e).
Proof.
  simpl. split.
  - intros P. unfold printable in P. destruct k; try discriminate.
    destruct fields as [|f fields].
    + reflexivity.
    + destruct v as [| | | | |d]; try discriminate.
      rewrite get_fields_dict. cbn [bind]. unfold py_join.
      rewrite join_parts_strings.
      * cbn [bind]. unfold render, field_text. cbn [fst snd map].
        rewrite map_map. reflexivity.
      * cbn [forallb is_string andb]. rewrite forallb_map. exact P.
  - intros P.
    destruct fields as [|f fields].
    + destruct k; simpl in *; try discriminate; eexists; reflexivity.
    + destruct v as [| | | | |d]; try (eexists; reflexivity).
      rewrite get_fields_dict. cbn [bind]. unfold py_join.
      destruct (join_parts_not_strings
                  (k :: map (fun f0 => dict_get d f0 (PStr "")) (f :: fields)) 0)
        as [e He].
      * cbn [forallb]. destruct k; try reflexivity.
        cbn [is_string andb]. rewrite forallb_map. exact P.
      * rewrite He. cbn [bind]. eauto.
Qed.

Lemma format_rows_cons (k v : pyval) (rest : pystore) (fields : list string) :
  format_rows ((k, v) :: rest) fields
  = (line <- (row <- get_fields v fields ;; py_join "|" (k :: row)) ;;
     lines <- format_rows rest fields ;;
     Return (line :: lines)).
Proof. cbn [format_rows]. destruct (get_fields v fields); reflexivity. Qed.

(** X5.  [format_resource_result] returns exactly when every key of the
    mapping is a string and, fields being projected, every value is an
    object whose projected fields are strings or absent; it then returns
    one line per entry, in the order of the mapping: the key and the
    projected fields, an absent one as the empty string, separated by
    [|] and written as they are.  A null or numeric field, or a numeric
    id, makes it raise. *)
Theorem format_resource_result_printable :
  forall store fields,
    (forallb (printable fields) store = true ->
     format_resource_result store fields
     = Return (String.concat (str1 lf) (map (render fields) store)))
    /\ (forallb (printable fields) store = false ->
        exists e, format_resource_result store fields = Raise e).
Proof.
  intros store fields.
  assert (A : forallb (printable fields) store = true ->
              format_rows store fields = Return (map (render fields) store)).
  { induction store as [|[k v] store IH]; [reflexivity|].
    rewrite format_rows_cons. cbn [forallb map].
    intros H. apply andb_prop in H. destruct H as [P R].
    destruct (format_row_cases fields k v) as [Ok _]. cbv zeta in Ok.
    rewrite (Ok P), (IH R). reflexivity. }
  assert (B : forallb (printable fields) store = false ->
              exists e, format_rows store fields = Raise e).
  { clear A. induction store as [|[k v] store IH]; [discriminate|].
    rewrite format_rows_cons. cbn [forallb].
    intros H. destruct (format_row_cases fields k v) as [Ok Bad]. cbv zeta in Ok, Bad.
    destruct (printable fields (k, v)) eqn:P.
    - rewrite (Ok eq_refl). cbn [andb] in H. destruct (IH H) as [e He].
      cbn [bind]. rewrite He. cbn [bind]. eauto.
    - destruct (Bad eq_refl) as [e He]. rewrite He. cbn [bind]. eauto. }
  unfold format_resource_result. split.
  - intros H. rewrite (A H). reflexivity.
  - intros H. destruct (B H) as [e He]. rewrite He. cbn [bind]. eauto.
Qed.

Lemma format_resource_result_printable_witness :
  format_resource_result [(PStr "a", Examples.flow_a'); (PStr "b", Examples.flow_b)]
                         ["name"; "description"]
  = Return (String.concat (str1 lf)
              (map (render ["name"; "description"])
                   [(PStr "a", Examples.flow_a'); (PStr "b", Examples.flow_b)])).
Proof.
  destruct (format_resource_result_printable
              [(PStr "a", Examples.flow_a'); (PStr "b", Examples.flow_b)]
              ["name"; "description"]) as [H _].
  apply H. reflexivity.
Defined.

(** ** The work-item document *)

Lemma str_app_assoc (a b c : string) : ((a ++ b) ++ c = a ++ (b ++ c))%string.
Proof. induction a as [|x a IH]; simpl; [reflexivity|]. rewrite IH. reflexivity. Qed.

Lemma str_app_nil_r (a : string) : (a ++ "" = a)%string.
Proof. induction a as [|x a IH]; simpl; [reflexivity|]. rewrite IH. reflexivity. Qed.

Lemma tostring_unfold (tag : string) (attrib : list (string * pyval))
    (children : list Element) :
  tostring (Elem tag attrib children)
  = (attrs <- serialize_attribs attrib ;;
     match children with
     | [] => Return ("<" ++ tag ++ attrs ++ " />")
     | _ => inner <- serialize_all children ;;
            Return ("<" ++ tag ++ attrs ++ ">" ++ inner ++ "</" ++ tag ++ ">")
     end).
Proof.
  cbn [tostring]. destruct (serialize_attribs attrib) as [attrs|e]; [|reflexivity].
  cbn [bind]. destruct children as [|c cs]; [reflexivity|].
  assert (E : forall l,
             (fix all (cs0 : list Element) : result string :=
                match cs0 with
                | [] => Return EmptyString
                | c0 :: cs' => x <- tostring c0 ;; y <- all cs' ;; Return (x ++ y)
                end) l = serialize_all l).
  { induction l as [|a l IH]; [reflexivity|]. cbn [serialize_all]. rewrite <- IH.
    reflexivity. }
  rewrite E. reflexivity.
Qed.

Lemma tostring_field (k : string) (v : pyval) :
  tostring (field_element (k, v))
  = (ev <- escape_attrib v ;;
     Return ("<field name=" ++ quoted (replace_chars attrib_entity k)
             ++ " type=" ++ quoted "text" ++ " value=" ++ quoted ev ++ " />")).
Proof.
  unfold field_element. rewrite tostring_unfold. cbn [fst snd serialize_attribs escape_attrib bind].
  destruct (escape_attrib v) as [ev|e]; [|reflexivity].
  cbn [bind]. unfold quoted, str1.
  change (replace_chars attrib_entity "text") with "text".
  repeat rewrite str_app_assoc. cbn [append]. reflexivity.
Qed.

Lemma serialize_fields_strings (fields : pydict) :
  forallb (fun kv => is_string (snd kv)) fields = true ->
  serialize_all (map field_element fields)
  = Return (String.concat "" (map field_xml fields)).
Proof.
  induction fields as [|[k v] fields IH]; [reflexivity|].
  cbn [forallb map serialize_all snd]. intros H. apply andb_prop in H.
  destruct H as [V R]. destruct v; try discriminate.
  rewrite tostring_field, (IH R). cbn [escape_attrib bind].
  unfold field_xml. cbn [fst snd py_str].
  destruct fields as [|kv fields]; cbn [map String.concat].
  - rewrite str_app_nil_r. reflexivity.
  - reflexivity.
Qed.

Lemma serialize_fields_unwritable (fields : pydict) :
  (exists kv, In kv fields /\ unwritable (snd kv) = true) ->
  exists v, serialize_all (map field_element fields) = Raise (serialization_error v).
Proof.
  induction fields as [|[k v] fields IH]; intros [kv [I U]]; [destruct I|].
  cbn [map serialize_all]. rewrite tostring_field.
  destruct (escape_attrib v) as [ev|e] eqn:E.
  - cbn [bind]. destruct I as [I|I].
    + subst kv. simpl in U. destruct v; simpl in *; discriminate.
    + destruct (IH (ex_intro _ kv (conj I U))) as [v' Hv']. rewrite Hv'.
      cbn [bind]. eauto.
  - cbn [bind]. exists v.
    destruct v as [| | | |l|d]; simpl in E; try (inversion E; reflexivity).
    + destruct (existsb is_special l); inversion E; reflexivity.
    + destruct (existsb _ d); inversion E; reflexivity.
Qed.

Lemma create_collection_xml_raises (fields : pydict) :
  (exists kv, In kv fields /\ unwritable (snd kv) = true) ->
  exists v, create_collection_xml fields = Raise (serialization_error v).
Proof.
  intros H. unfold create_collection_xml.
  rewrite tostring_unfold. cbn [serialize_attribs bind serialize_all].
  rewrite tostring_unfold. cbn [serialize_attribs bind].
  destruct (serialize_fields_unwritable _ H) as [v Hv].
  destruct fields as [|kv fields].
  - destruct H as [kv [[] _]].
  - cbn [map] in *. rewrite Hv. cbn [bind]. eauto.
Qed.

(** X6.  For arguments whose values are all strings,
    [create_collection_xml] returns the base64 text of a document with
    one [field] element per argument, in the order of the arguments,
    inside one [row] of one [collection]; names and values are written
    with the five characters and three controls of [_escape_attrib]
    replaced.  An argument whose value is null, a boolean or a number
    makes it raise the serialiser's [TypeError]. *)
Theorem create_collection_xml_document :
  forall fields,
    (forallb (fun kv => is_string (snd kv)) fields = true ->
     create_collection_xml fields
     = Return (b64encode
                 ("<collection>"
                  ++ match fields with
                     | [] => "<row />"
                     | _ => "<row>" ++ String.concat "" (map field_xml fields) ++ "</row>"
                     end
                  ++ "</collection>")))
    /\ ((exists kv, In kv fields /\ unwritable (snd kv) = true) ->
        exists v, create_collection_xml fields = Raise (serialization_error v)).
Proof.
  intros fields. unfold create_collection_xml. split.
  - intros H. rewrite tostring_unfold. cbn [serialize_attribs bind serialize_all].
    rewrite tostring_unfold. cbn [serialize_attribs bind].
    destruct fields as [|kv fields].
    + reflexivity.
    + cbn [map]. change (field_element kv :: map field_element fields)
        with (map field_element (kv :: fields)).
      rewrite (serialize_fields_strings _ H). cbn [bind].
      rewrite str_app_nil_r. cbn [append]. reflexivity.
  - intros H. apply create_collection_xml_raises. exact H.
Qed.

Lemma create_collection_xml_document_witness :
  exists v, create_collection_xml [("invoice", PStr "42"); ("paid", PBool false)]
            = Raise (serialization_error v).
Proof.
  destruct (create_collection_xml_document
              [("invoice", PStr "42"); ("paid", PBool false)]) as [_ H].
  apply H. exists ("paid", PBool false). split; [right; left; reflexivity|reflexivity].
Defined.

(** ** Submissions that stop before the request *)

Lemma api_requests_app (h1 h2 : list event) :
  api_requests (h1 ++ h2)%list = (api_requests h1 ++ api_requests h2)%list.
Proof. unfold api_requests. apply flat_map_app. Qed.

Lemma submit_work_item_frame env tool arguments st st' r :
  submit_work_item env tool arguments st = (st', r) ->
  internal_resources st' = internal_resources st /\ resources st' = resources st.
Proof.
  unfold submit_work_item.
  destruct arguments as [[|a args]|];
    try (intros H; inversion H; subst; split; reflexivity).
  destruct (acquire_token env st) as [st1 [token|e]] eqn:A;
    destruct (acquire_token_frame _ _ _ _ A) as [I1 R1];
    [|intros H; inversion H; subst; split; assumption].
  match goal with
  | |- context [match ?x with Return _ => _ | Raise _ => _ end] => destruct x as [[u b]|e]
  end; [|intros H; inversion H; subst; split; assumption].
  unfold async_request.
  destruct (respond env _ _); intros H; inversion H; subst; split; assumption.
Qed.

(** A payload that cannot be built keeps the call from sending
    anything. *)
Lemma submission_without_payload fuel env tool arguments st :
  store_mem (PStr tool) (internal_resources st workqueues) = true ->
  (forall config args,
      arguments = Some args ->
      store_get (PStr tool) (internal_resources st workqueues) = Some config ->
      exists e, logged_payload config args = Raise e) ->
  exists st' msg,
    handle_call_tool fuel env tool arguments st
    = Some (st', Return (text_content ("Error creating work queue item: " ++ msg)))
    /\ api_requests (history st') = api_requests (history st)
    /\ internal_resources st' = internal_resources st
    /\ resources st' = resources st.
Proof.
  intros W P. unfold handle_call_tool. rewrite W.
  destruct (submit_work_item env tool arguments st) as [st' r] eqn:S.
  destruct (submit_work_item_frame _ _ _ _ _ _ S) as [I R].
  destruct (submit_work_item_cases _ _ _ _ _ _ S)
    as [[Hh [e He]]|[[Hh [e He]]|
        [args [token [config [queue_id [logged [body [Ha [Hc [Hq [Hl _]]]]]]]]]]]].
  - subst r. exists st', (exn_msg e). rewrite Hh. repeat split; assumption.
  - subst r. exists st', (exn_msg e). rewrite Hh, api_requests_app. simpl.
    rewrite app_nil_r. repeat split; assumption.
  - destruct (P config args Ha Hc) as [e He]. congruence.
Qed.

Lemma logged_payload_needs_data (config : pyval) (args : pydict) (e : exn) :
  create_collection_xml args = Raise e ->
  exists e', logged_payload config args = Raise e'.
Proof.
  intros H. unfold logged_payload.
  destruct (py_get config "keyValue" _); cbn [bind]; [|eauto].
  destruct (py_get config "priority" _); cbn [bind]; [|eauto].
  destruct (py_int _); cbn [bind]; [|eauto].
  destruct (py_get config "status" _); cbn [bind]; [|eauto].
  destruct (py_get config "tags" _); cbn [bind]; [|eauto].
  destruct (tags_list _); cbn [bind]; [|eauto].
  rewrite H. cbn [bind]. eauto.
Qed.

(** X7.  A work-queue tool called with an argument whose value is null,
    a boolean or a number returns the error text and sends no request to
    the API: the document is built, and fails, before [async_request] is
    called.  The stores are as before. *)
Theorem unwritable_argument_sends_nothing :
  forall fuel env tool args st,
    store_mem (PStr tool) (internal_resources st workqueues) = true ->
    (exists kv, In kv args /\ unwritable (snd kv) = true) ->
    exists st' msg,
      handle_call_tool fuel env tool (Some args) st
      = Some (st', Return (text_content ("Error creating work queue item: " ++ msg)))
      /\ api_requests (history st') = api_requests (history st)
      /\ internal_resources st' = internal_resources st
      /\ resources st' = resources st.
Proof.
  intros fuel env tool args st W U.
  apply submission_without_payload; [exact W|].
  intros config args' E _. inversion E; subst args'.
  destruct (create_collection_xml_raises args U) as [v Hv].
  eapply logged_payload_needs_data. exact Hv.
Qed.

Lemma unwritable_argument_sends_nothing_witness :
  exists st' msg,
    handle_call_tool 0 Examples.env_queue "enqueue-50"
                     (Some [("invoice", PInt 42)]) Examples.loaded
    = Some (st', Return (text_content ("Error creating work queue item: " ++ msg)))
    /\ api_requests (history st') = api_requests (history Examples.loaded)
    /\ internal_resources st' = internal_resources Examples.loaded
    /\ resources st' = resources Examples.loaded.
Proof.
  apply unwritable_argument_sends_nothing.
  - reflexivity.
  - exists ("invoice", PInt 42). split; [left; reflexivity|reflexivity].
Defined.

(** X8.  A table row shorter than its header leaves [tags] as [None];
    the payload that is only logged reads it with a default that does
    not apply to a present key and calls [split] on it, so every
    submission to such a tool returns the error text and sends no
    request, although the payload that would be sent falls back to
    [tag1]. *)
Theorem missing_tags_column_sends_nothing :
  forall fuel env tool arguments st config,
    store_get (PStr tool) (internal_resources st workqueues) = Some (PDict config) ->
    assoc "tags" config = Some PNone ->
    (exists st' msg,
        handle_call_tool fuel env tool arguments st
        = Some (st', Return (text_content ("Error creating work queue item: " ++ msg)))
        /\ api_requests (history st') = api_requests (history st))
    /\ (forall args body,
           sent_payload (PDict config) args = Return body ->
           exists b, body = PDict b /\ assoc "tags" b = Some (PList [PStr "tag1"])).
Proof.
  intros fuel env tool arguments st config C T. split.
  - destruct (submission_without_payload fuel env tool arguments st)
      as [st' [msg [E [A _]]]].
    + eapply store_mem_get; eauto.
    + intros config0 args _ C0. rewrite C in C0. inversion C0; subst config0.
      unfold logged_payload. cbn [py_get bind].
      destruct (py_int _); cbn [bind]; [|eauto].
      assert (D : dict_get config "tags" (PStr "tag1") = PNone)
        by (unfold dict_get; rewrite T; reflexivity).
      rewrite D. cbn [tags_list py_split bind]. eauto.
    + eauto.
  - intros args body. unfold sent_payload. cbn [py_get bind].
    destruct (py_int _); cbn [bind]; [|discriminate].
    assert (D : dict_get config "tags" PNone = PNone)
      by (unfold dict_get; rewrite T; reflexivity).
    rewrite D.
    change (py_or PNone (PStr "tag1")) with (PStr "tag1").
    change (tags_list (PStr "tag1")) with (Return (A:=pyval) (PList [PStr "tag1"])).
    cbn [bind].
    destruct (create_collection_xml args); cbn [bind]; [|discriminate].
    intros H. inversion H. eexists. split; reflexivity.
Qed.

Lemma missing_tags_column_sends_nothing_witness :
  exists st' msg,
    handle_call_tool 0 Examples.env_queue "enqueue-short"
                     (Some [("invoice", PStr "42")]) Examples.short_loaded
    = Some (st', Return (text_content ("Error creating work queue item: " ++ msg)))
    /\ api_requests (history st') = api_requests (history Examples.short_loaded).
Proof.
  destruct (missing_tags_column_sends_nothing
              0 Examples.env_queue "enqueue-short" (Some [("invoice", PStr "42")])
              Examples.short_loaded Examples.short_row eq_refl eq_refl) as [H _].
  exact H.
Defined.

(** ** A failed credential *)

Lemma acquire_token_fails env st :
  no_credential env st ->
  exists e, acquire_token env st = (record EvToken st, Raise e).
Proof.
  intros N. unfold acquire_token, get_access_token.
  destruct (fetch_token env (history st)) as [token|e] eqn:F; [|eauto].
  rewrite (N token F). simpl. eauto.
Qed.

(** X9.  When the token provider fails, raising or handing out an empty
    token, a call of any tool the dispatcher knows returns a text result,
    sends no request to the API and leaves every staging and published
    mapping as it was: in particular a listing tool does not clear its
    staging mapping. *)
Theorem credential_failure_changes_nothing :
  forall fuel env tool arguments st,
    dispatchable env st tool = true ->
    no_credential env st ->
    exists st' s,
      handle_call_tool fuel env tool arguments st = Some (st', Return (text_content s))
      /\ api_requests (history st') = api_requests (history st)
      /\ internal_resources st' = internal_resources st
      /\ resources st' = resources st.
Proof.
  intros fuel env tool arguments st D N.
  destruct (acquire_token_fails env st N) as [e A].
  assert (Hrec : api_requests (history (record EvToken st)) = api_requests (history st)).
  { simpl. rewrite api_requests_app. simpl. apply app_nil_r. }
  unfold dispatchable in D. unfold handle_call_tool.
  remember (lookup_str tool (mapping env)) as m eqn:M. symmetry in M.
  destruct (store_mem (PStr tool) (internal_resources st workqueues)).
  { unfold submit_work_item. rewrite A.
    destruct arguments as [[|a args]|]; simpl; eexists; eexists;
      (split; [reflexivity|]); repeat split; try reflexivity; exact Hrec. }
  destruct (String.eqb tool "start-automation-flow").
  { unfold start_automation_flow. rewrite A.
    destruct arguments as [[|a args]|]; simpl; eexists; eexists;
      (split; [reflexivity|]); repeat split; try reflexivity; exact Hrec. }
  destruct m as [[[url key] fields]|]; [|discriminate].
  rewrite (mapping_names_retrieve env tool _ M).
  unfold retrieve_list. cbv zeta. rewrite A. simpl.
  eexists. eexists. split; [reflexivity|]. repeat split; try reflexivity. exact Hrec.
Qed.

Lemma credential_failure_changes_nothing_witness :
  exists st' s,
    handle_call_tool 5 Examples.env_oauth_down "retrieve-session-list"
                     (Some [("set_resource", PBool true)]) initial_state
    = Some (st', Return (text_content s))
    /\ api_requests (history st') = api_requests (history initial_state)
    /\ internal_resources st' = internal_resources initial_state
    /\ resources st' = resources initial_state.
Proof.
  apply credential_failure_changes_nothing.
  - reflexivity.
  - intros token H. discriminate.
Defined.

(** ** Starting a flow *)

Lemma acquire_token_ok env st token :
  fetch_token env (history st) = Return token -> token <> "" ->
  acquire_token env st = (record EvToken st, Return token).
Proof.
  intros F N. unfold acquire_token, get_access_token. rewrite F.
  destruct (String.eqb token "") eqn:E; [|reflexivity].
  apply String.eqb_eq in E. contradiction.
Qed.

(** X10.  Once the API has answered the start request with an execution
    id, that id is registered in the published activity logs, as
    [{"id": id}] and without passing through the staging mapping, whether
    or not the notification that follows goes through; the call reports
    the start exactly when the notification does not fail, and an error
    text otherwise.  Nothing else is changed. *)
Theorem started_flow_is_registered :
  forall fuel env arguments st flow_id token d,
    store_mem (PStr "start-automation-flow") (internal_resources st workqueues) = false ->
    is_empty (Some arguments) = false ->
    dict_item arguments "automation_flow_id" = Return flow_id ->
    fetch_token env (history st) = Return token -> token <> "" ->
    respond env (history st ++ [EvToken])%list (start_request env flow_id token)
    = Return (PDict d) ->
    let exec_id := dict_get d "id" (PStr "") in
    truthy exec_id = true -> hashable exec_id = true ->
    exists st' s,
      handle_call_tool fuel env "start-automation-flow" (Some arguments) st
      = Some (st', Return (text_content s))
      /\ resources st' activitylogs
         = store_put exec_id (PDict [("id", exec_id)]) (resources st activitylogs)
      /\ (forall k, k <> activitylogs -> resources st' k = resources st k)
      /\ internal_resources st' = internal_resources st
      /\ api_requests (history st')
         = (api_requests (history st) ++ [start_request env flow_id token])%list
      /\ (notified (session env (history st ++ [EvToken;
                                   EvRequest (start_request env flow_id token)])%list)
          = true ->
          s = "Started automation flow: " ++ py_str exec_id)
      /\ (notified (session env (history st ++ [EvToken;
                                   EvRequest (start_request env flow_id token)])%list)
          = false ->
          exists msg, s = "Error starting automation flow: " ++ msg).
Proof.
  intros fuel env arguments st flow_id token d W NE FI F NT R exec_id T Hh.
  unfold handle_call_tool. rewrite W. simpl String.eqb. cbv iota.
  unfold start_automation_flow.
  destruct arguments as [|a args]; [discriminate|].
  rewrite (acquire_token_ok _ _ _ F NT), FI.
  unfold async_request. cbn [history record]. fold (start_request env flow_id token).
  rewrite R. cbn [py_get]. fold exec_id. rewrite T.
  unfold store_set. rewrite Hh.
  unfold send_resource_list_changed. cbn [history set_resources record].
  rewrite <- app_assoc. cbn [app].
  destruct (session env (history st ++ [EvToken;
                           EvRequest (start_request env flow_id token)])%list)
    as [e| |[[]|e]]; cbn [caught notified];
    eexists; eexists; (split; [reflexivity|]);
    (split; [cbn [resources set_resources record]; apply upd_same|]);
    (split; [intros k Hk; cbn [resources set_resources record];
             apply upd_other; congruence|]);
    (split; [reflexivity|]);
    (split; [cbn [history set_resources record]; rewrite !api_requests_app;
             cbn [api_requests flat_map app]; rewrite ?app_nil_r; reflexivity|]);
    split; intros X; try discriminate; try reflexivity; eexists; reflexivity.
Qed.

Lemma started_flow_is_registered_witness :
  exists st' s,
    Examples.start_call Examples.env_flow_started_closed
    = Some (st', Return (text_content s))
    /\ resources st' activitylogs
       = [(PStr "run-7", PDict [("id", PStr "run-7")])]
    /\ exists msg, s = "Error starting automation flow: " ++ msg.
Proof.
  destruct (started_flow_is_registered
              0 Examples.env_flow_started_closed
              [("automation_flow_id", PStr "flow-1")] initial_state
              (PStr "flow-1") "tok" [("id", PStr "run-7")]
              eq_refl eq_refl eq_refl eq_refl)
    as [st' [s [E [R [_ [_ [_ [_ N]]]]]]]];
    [discriminate | reflexivity | reflexivity | reflexivity |].
  exists st', s. split; [exact E|]. split; [exact R|]. apply N. reflexivity.
Defined.

(** The same start against a session that takes the notification. *)
Example flow_started :
  option_map snd (Examples.start_call Examples.env_flow_started)
  = Some (Return (text_content "Started automation flow: run-7")).
Proof. reflexivity. Qed.

(** X11.  When the API answers the start request with an object that
    carries no id, or an empty or null one, the call returns the text
    [Error starting automation flow: Execution ID not returned] and
    registers nothing, although the request has been sent. *)
Theorem start_without_execution_id :
  forall fuel env arguments st flow_id token d,
    store_mem (PStr "start-automation-flow") (internal_resources st workqueues) = false ->
    is_empty (Some arguments) = false ->
    dict_item arguments "automation_flow_id" = Return flow_id ->
    fetch_token env (history st) = Return token -> token <> "" ->
    respond env (history st ++ [EvToken])%list (start_request env flow_id token)
    = Return (PDict d) ->
    truthy (dict_get d "id" (PStr "")) = false ->
    exists st',
      handle_call_tool fuel env "start-automation-flow" (Some arguments) st
      = Some (st', Return (text_content
                             "Error starting automation flow: Execution ID not returned"))
      /\ resources st' = resources st
      /\ internal_resources st' = internal_resources st
      /\ api_requests (history st')
         = (api_requests (history st) ++ [start_request env flow_id token])%list.
Proof.
  intros fuel env arguments st flow_id token d W NE FI F NT R T.
  unfold handle_call_tool. rewrite W. simpl String.eqb. cbv iota.
  unfold start_automation_flow.
  destruct arguments as [|a args]; [discriminate|].
  rewrite (acquire_token_ok _ _ _ F NT), FI.
  unfold async_request. cbn [history record]. fold (start_request env flow_id token).
  rewrite R. cbn [py_get]. rewrite T.
  eexists. split; [reflexivity|]. split; [reflexivity|]. split; [reflexivity|].
  cbn [history record]. rewrite !api_requests_app. simpl. rewrite app_nil_r. reflexivity.
Qed.

Lemma start_without_execution_id_witness :
  exists st',
    handle_call_tool 0 Examples.env_queue "start-automation-flow"
                     (Some [("automation_flow_id", PStr "flow-1")]) initial_state
    = Some (st', Return (text_content
                           "Error starting automation flow: Execution ID not returned"))
    /\ resources st' = resources initial_state
    /\ internal_resources st' = internal_resources initial_state
    /\ api_requests (history st')
       = (api_requests (history initial_state)
            ++ [start_request Examples.env_queue (PStr "flow-1") "tok"])%list.
Proof.
  apply (start_without_execution_id
           0 Examples.env_queue [("automation_flow_id", PStr "flow-1")] initial_state
           (PStr "flow-1") "tok" [("itemId", PStr "item-1")]);
    try reflexivity.
  discriminate.
Defined.

(** ** The catalogue *)

Lemma store_mem_put_mono (k k' v : pyval) (s : pystore) :
  store_mem k s = true -> store_mem k (store_put k' v s) = true.
Proof.
  unfold store_mem. rewrite store_get_put.
  destruct (key_eqb k k'); [reflexivity|]. auto.
Qed.

Lemma store_mem_put_same (n : string) (v : pyval) (s : pystore) :
  store_mem (PStr n) (store_put (PStr n) v s) = true.
Proof.
  unfold store_mem. rewrite store_get_put. simpl. rewrite String.eqb_refl. reflexivity.
Qed.

(** The loop registers every tool it appends and drops nothing from the
    lookup. *)
Lemma load_rows_registered (env : environment) (rows : list pydict) :
  forall tools lookup tools' lookup',
    load_rows env rows tools lookup = (tools', lookup') ->
    (forall k, store_mem k lookup = true -> store_mem k lookup' = true)
    /\ exists new,
        tools' = (tools ++ new)%list
        /\ forall t, In t new -> store_mem (PStr (name t)) lookup' = true.
Proof.
  induction rows as [|row rows IH]; intros tools lookup tools' lookup'; simpl.
  - intros H. inversion H; subst. split; [auto|]. exists []. rewrite app_nil_r.
    split; [reflexivity|]. intros t [].
  - destruct (row_tool env row) as [tool|e] eqn:R.
    + rewrite (row_tool_name _ _ _ R). simpl. intros H.
      destruct (IH _ _ _ _ H) as [M [new [E N]]].
      split.
      * intros k Hk. apply M. apply store_mem_put_mono. exact Hk.
      * exists (tool :: new). rewrite E, <- app_assoc. split; [reflexivity|].
        intros t [I|I]; [|apply N; exact I].
        subst t. apply M. apply store_mem_put_same.
    + intros H. inversion H; subst. split; [auto|]. exists []. rewrite app_nil_r.
      split; [reflexivity|]. intros t [].
Qed.


(** X13.  Loading the table never removes a name from the work-queue
    lookup, so a tool whose row has been deleted stays callable; it
    touches nothing but that lookup; and when the file cannot be opened
    it returns no descriptor and leaves the lookup as it was. *)
Theorem load_never_unregisters :
  forall env file st,
    let st' := fst (load_tools_from_csv env file st) in
    (forall k, store_mem k (internal_resources st workqueues) = true ->
               store_mem k (internal_resources st' workqueues) = true)
    /\ (forall k, k <> workqueues -> internal_resources st' k = internal_resources st k)
    /\ resources st' = resources st
    /\ history st' = history st
    /\ (forall e, csv_rows env file = Raise e ->
                  load_tools_from_csv env file st = (st, [])).
Proof.
  intros env file st. unfold load_tools_from_csv.
  destruct (csv_rows env file) as [rows|e]; simpl.
  - destruct (load_rows env rows [] (internal_resources st workqueues))
      as [tools lookup] eqn:L. simpl.
    destruct (load_rows_registered _ _ _ _ _ _ L) as [M _].
    split; [intros k Hk; rewrite upd_same; apply M; exact Hk|].
    split; [intros k Hk; apply upd_other; congruence|].
    split; [reflexivity|]. split; [reflexivity|]. intros e H. discriminate.
  - split; [auto|]. split; [auto|]. split; [reflexivity|]. split; [reflexivity|].
    intros e' _. reflexivity.
Qed.

Lemma load_never_unregisters_witness :
  store_mem (PStr "enqueue-50")
            (internal_resources
               (fst (load_tools_from_csv Examples.env_broken_table "workqueues.csv"
                       Examples.loaded)) workqueues) = true.
Proof.
  destruct (load_never_unregisters Examples.env_broken_table "workqueues.csv"
              Examples.loaded) as [H _].
  apply H. reflexivity.
Defined.

(** ** What a tool call can change *)

Lemma start_automation_flow_internal env arguments st st' r :
  start_automation_flow env arguments st = (st', r) ->
  internal_resources st' = internal_resources st.
Proof.
  unfold start_automation_flow.
  destruct arguments as [[|a args]|];
    try (intros H; inversion H; subst; reflexivity).
  destruct (acquire_token env st) as [st1 [token|e]] eqn:A;
    destruct (acquire_token_frame _ _ _ _ A) as [I1 _];
    [|intros H; inversion H; subst; exact I1].
  destruct (dict_item (a :: args) "automation_flow_id") as [flow_id|e];
    [|intros H; inversion H; subst; exact I1].
  unfold async_request.
  destruct (respond env _ _) as [result|e];
    [|intros H; inversion H; subst; exact I1].
  destruct (py_get result "id" (PStr "")) as [exec_id|e];
    [|intros H; inversion H; subst; exact I1].
  destruct (truthy exec_id); [|intros H; inversion H; subst; exact I1].
  destruct (store_set exec_id _ _) as [logs|e];
    [|intros H; inversion H; subst; exact I1].
  match goal with
  | |- context [send_resource_list_changed env ?s] =>
      destruct (send_resource_list_changed env s) as [st3 [[]|e]] eqn:N;
      destruct (send_resource_list_changed_frame _ _ _ _ N) as [I3 _]
  end; intros H; inversion H; subst; rewrite I3; exact I1.
Qed.

Lemma mapping_kinds (env : environment) (tool url : string) (key : kind)
    (fields : list string) :
  lookup_str tool (mapping env) = Some (url, key, fields) -> key <> workqueues.
Proof.
  unfold mapping. simpl.
  repeat (match goal with
          | |- context [if ?c then _ else _] => destruct c
          end; [intros H; inversion H; subst; discriminate|]).
  discriminate.
Qed.

Lemma retrieve_list_other_kinds fuel env url key fields arguments st st' r :
  retrieve_list fuel env url key fields arguments st = Some (st', r) ->
  forall k, k <> key -> internal_resources st' k = internal_resources st k.
Proof.
  unfold retrieve_list. cbv zeta.
  set (args := if is_empty arguments then []
               else match arguments with Some d => d | None => [] end).
  destruct (acquire_token env st) as [st1 [token|e]] eqn:A;
    destruct (acquire_token_frame _ _ _ _ A) as [I1 _];
    [|intros H k Hk; inversion H; subst; rewrite I1; reflexivity].
  destruct (retrieve_entities fuel env token url key args st1) as [[st2 store]|] eqn:E;
    [|discriminate].
  assert (I2 : forall k, k <> key -> internal_resources st2 k = internal_resources st k).
  { intros k Hk. unfold retrieve_entities in E.
    pose proof (retrieve_loop_other_kinds env token key fuel url (walker_params args)
                  (set_internal key [] st1) k Hk) as O.
    destruct (retrieve_loop fuel env token key url (walker_params args)
                (set_internal key [] st1)) as [s2 [|]]; [|discriminate].
    inversion E; subst. simpl in O. rewrite O. simpl.
    rewrite upd_other by congruence. rewrite I1. reflexivity. }
  destruct (send_resource_list_changed env st2) as [st3 [[]|e]] eqn:N;
    destruct (send_resource_list_changed_frame _ _ _ _ N) as [I3 _];
    [|intros H k Hk; inversion H; subst; rewrite I3; auto].
  destruct (format_resource_result store fields) as [txt|e];
    [|intros H k Hk; inversion H; subst; rewrite I3; auto].
  destruct (get_set_resource arguments) as [flag|e];
    [|intros H k Hk; inversion H; subst; rewrite I3; auto].
  destruct (truthy flag); intros H k Hk; inversion H; subst; simpl; rewrite I3; auto.
Qed.

(** X14.  No tool call changes the work-queue lookup, whatever the tool,
    the arguments and the answers of the outside: the set of names the
    dispatcher has a branch for is the same after a call as before. *)
Theorem tool_calls_keep_the_lookup :
  forall fuel env tool arguments st st' r,
    handle_call_tool fuel env tool arguments st = Some (st', r) ->
    internal_resources st' workqueues = internal_resources st workqueues
    /\ (forall t, dispatchable env st' t = dispatchable env st t).
Proof.
  intros fuel env tool arguments st st' r H.
  assert (L : internal_resources st' workqueues = internal_resources st workqueues).
  { unfold handle_call_tool in H.
    destruct (store_mem (PStr tool) (internal_resources st workqueues)).
    { destruct (submit_work_item env tool arguments st) as [s x] eqn:S.
      destruct (submit_work_item_frame _ _ _ _ _ _ S) as [I _].
      inversion H; subst. rewrite I. reflexivity. }
    destruct (String.eqb tool "start-automation-flow").
    { destruct (start_automation_flow env arguments st) as [s x] eqn:S.
      pose proof (start_automation_flow_internal _ _ _ _ _ S) as I.
      inversion H; subst. rewrite I. reflexivity. }
    destruct (startswith tool "retrieve-"); [|inversion H; subst; reflexivity].
    destruct (lookup_str tool (mapping env)) as [[[url key] fields]|] eqn:M;
      [|inversion H; subst; reflexivity].
    destruct (retrieve_list fuel env url key fields arguments st) as [[s x]|] eqn:R;
      [|discriminate].
    inversion H; subst.
    apply (retrieve_list_other_kinds _ _ _ _ _ _ _ _ _ R).
    intros E. symmetry in E. revert E. eapply mapping_kinds. exact M. }
  split; [exact L|]. intros t. unfold dispatchable. rewrite L. reflexivity.
Qed.

Lemma tool_calls_keep_the_lookup_witness :
  exists st' r,
    Examples.submit "enqueue-50" = Some (st', r)
    /\ internal_resources st' workqueues = internal_resources Examples.loaded workqueues.
Proof.
  destruct (Examples.submit "enqueue-50") as [[st' r]|] eqn:E; [|discriminate].
  exists st', r. split; [reflexivity|].
  exact (proj1 (tool_calls_keep_the_lookup _ _ _ _ _ _ _ E)).
Defined.

(** ** Listing the resources *)

(** X15.  What [handle_list_resources] reports depends on the published
    mappings only, and a tool call other than a flow start that does not
    ask for [set_resource] changes none of it: whatever it retrieved,
    submitted or failed at, the listing afterwards is the listing
    before. *)
Theorem listing_changes_only_by_publishing :
  forall fuel env AnyUrl tool arguments st st' r,
    tool <> "start-automation-flow" ->
    no_set_resource arguments ->
    handle_call_tool fuel env tool arguments st = Some (st', r) ->
    handle_list_resources env AnyUrl st' = handle_list_resources env AnyUrl st.
Proof.
  intros fuel env AnyUrl tool arguments st st' r NS Flag H.
  assert (R : resources st' = resources st).
  { unfold handle_call_tool in H.
    destruct (store_mem (PStr tool) (internal_resources st workqueues)).
    { destruct (submit_work_item env tool arguments st) as [s x] eqn:S.
      destruct (submit_work_item_frame _ _ _ _ _ _ S) as [_ I].
      inversion H; subst. exact I. }
    destruct (String.eqb tool "start-automation-flow") eqn:E.
    { apply String.eqb_eq in E. contradiction. }
    destruct (startswith tool "retrieve-"); [|inversion H; subst; reflexivity].
    destruct (lookup_str tool (mapping env)) as [[[url key] fields]|];
      [|inversion H; subst; reflexivity].
    destruct (retrieve_list fuel env url key fields arguments st) as [[s x]|] eqn:L;
      [|discriminate].
    inversion H; subst.
    eapply retrieve_list_no_publish; [exact Flag|exact L]. }
  unfold handle_list_resources. rewrite R. reflexivity.
Qed.

Lemma listing_changes_only_by_publishing_witness :
  exists st' r,
    handle_call_tool 5 Examples.env_two_pages "retrieve-automation-flow-list" (Some [])
                     initial_state = Some (st', r)
    /\ handle_list_resources Examples.env_two_pages Examples.any_url_ok st'
       = handle_list_resources Examples.env_two_pages Examples.any_url_ok initial_state.
Proof.
  destruct (handle_call_tool 5 Examples.env_two_pages "retrieve-automation-flow-list"
              (Some []) initial_state) as [[st' r]|] eqn:E; [|discriminate].
  exists st', r. split; [reflexivity|].
  apply (listing_changes_only_by_publishing
           5 Examples.env_two_pages Examples.any_url_ok
           "retrieve-automation-flow-list" (Some []) initial_state st' r).
  - discriminate.
  - reflexivity.
  - exact E.
Defined.




(** The published mapping of [Examples] is listed under the names of its
    two flows. *)
Example published_flows_listed :
  map r_name (handle_list_resources Examples.env_two_pages Examples.any_url_ok
                Examples.published_state)
  = ["Flow A, renamed"; "Flow B"].
Proof. reflexivity. Qed.

(** ** The login prompt *)

(** X17.  [Set-NextGen-Login] never raises and overwrites the
    credentials with what it was given before it tries them: afterwards
    the login prompt is offered exactly when the id or the secret given
    is missing or empty, whether or not a token could be obtained; the
    mappings are untouched, and nothing is asked of the API.  When the
    token is obtained and the notification does not fail, the
    description returned ends with the token itself.  Any other prompt
    name raises [ValueError] and changes nothing. *)
Theorem login_prompt_follows_arguments :
  forall env prompt_session arguments creds st,
    let given := match arguments with Some d => d | None => [] end in
    let outcome := handle_get_prompt env prompt_session "Set-NextGen-Login"
                                     arguments creds st in
    let creds' := fst (fst outcome) in
    let st' := snd (fst outcome) in
    (exists g, snd outcome = Return g)
    /\ handle_list_prompts creds'
       = (if truthy (dict_get given "id" (PStr ""))
             && truthy (dict_get given "secret" (PStr ""))
          then [] else [login_prompt])
    /\ internal_resources st' = internal_resources st
    /\ resources st' = resources st
    /\ api_requests (history st') = api_requests (history st)
    /\ (forall token,
           fetch_token env (history st) = Return token ->
           notified (prompt_session (history st ++ [EvToken])%list) = true ->
           exists g,
             snd outcome = Return g
             /\ g_description g
                = "Connection information configured successfully.:" ++ token)
    /\ (forall other,
           other <> "Set-NextGen-Login" ->
           handle_get_prompt env prompt_session other arguments creds st
           = (creds, st, Raise (ValueError ("Unknown prompt: " ++ other)))).
Proof.
  intros env prompt_session arguments creds st given outcome creds' st'.
  assert (A : api_requests (history (record EvToken st)) = api_requests (history st)).
  { simpl. rewrite api_requests_app. simpl. apply app_nil_r. }
  unfold creds', st', outcome, handle_get_prompt, get_access_token,
    send_prompt_list_changed.
  rewrite String.eqb_refl. cbv zeta. subst given. cbn [history record].
  split; [|split; [|split; [|split; [|split; [|split]]]]].
  - destruct (fetch_token env (history st)); [|eexists; reflexivity].
    destruct (prompt_session _) as [e| |[[]|e]]; eexists; reflexivity.
  - destruct (fetch_token env (history st));
      [destruct (prompt_session _) as [e| |[[]|e]]|];
      cbn [fst snd]; unfold handle_list_prompts; cbn [CLIENT_ID CLIENT_SECRET];
      destruct (truthy (dict_get _ "id" (PStr "")));
      destruct (truthy (dict_get _ "secret" (PStr ""))); reflexivity.
  - destruct (fetch_token env (history st));
      [destruct (prompt_session _) as [e| |[[]|e]]|]; reflexivity.
  - destruct (fetch_token env (history st));
      [destruct (prompt_session _) as [e| |[[]|e]]|]; reflexivity.
  - destruct (fetch_token env (history st));
      [destruct (prompt_session _) as [e| |[[]|e]]|]; exact A.
  - intros token F N. rewrite F.
    destruct (prompt_session _) as [e| |[[]|e]]; try discriminate;
      eexists; split; reflexivity.
  - intros other O. unfold handle_get_prompt.
    destruct (String.eqb other "Set-NextGen-Login") eqn:E; [|reflexivity].
    apply String.eqb_eq in E. contradiction.
Qed.

Lemma login_prompt_follows_arguments_witness :
  exists g,
    snd (handle_get_prompt Examples.env_api_down Examples.prompt_session_ok
           "Set-NextGen-Login" (Some Examples.login) Examples.no_credentials
           initial_state) = Return g
    /\ g_description g = "Connection information configured successfully.:" ++ "tok".
Proof.
  destruct (login_prompt_follows_arguments
              Examples.env_api_down Examples.prompt_session_ok (Some Examples.login)
              Examples.no_credentials initial_state) as [_ [_ [_ [_ [_ [H _]]]]]].
  apply H; reflexivity.
Defined.

(** A login that the token endpoint rejects hides the prompt all the
    same; a login without arguments brings it back. *)
Example prompt_after_failed_login :
  handle_list_prompts
    (fst (fst (handle_get_prompt Examples.env_oauth_down Examples.prompt_session_ok
                 "Set-NextGen-Login" (Some Examples.login) Examples.no_credentials
                 initial_state))) = []
  /\ handle_list_prompts
       (fst (fst (handle_get_prompt Examples.env_api_down Examples.prompt_session_ok
                    "Set-NextGen-Login" None
                    {| CLIENT_ID := PStr "client-1"; CLIENT_SECRET := PStr "s3cret" |}
                    initial_state))) = [login_prompt].
Proof. split; reflexivity. Qed.

(** ** Reading a resource, once more *)

(** X18.  [handle_read_resource] changes no mapping and sends at most
    one request to the API; it raises only before that request: once the
    detail request has been sent, whatever the answer, it returns a
    text. *)
Theorem read_resource_raises_only_before_request :
  forall env uri st,
    let st' := fst (handle_read_resource env uri st) in
    let r := snd (handle_read_resource env uri st) in
    internal_resources st' = internal_resources st
    /\ resources st' = resources st
    /\ (api_requests (history st') = api_requests (history st)
        \/ exists base p token text,
            lookup_str (scheme uri) (scheme_to_url env) = Some base
            /\ path uri = Some p
            /\ api_requests (history st')
               = (api_requests (history st)
                    ++ [detail_request (detail_url base uri p) token])%list
            /\ r = Return text)
    /\ (forall e, r = Raise e -> api_requests (history st') = api_requests (history st)).
Proof.
  intros env uri st. unfold handle_read_resource, get_access_token, async_request.
  assert (A : api_requests (history (record EvToken st)) = api_requests (history st)).
  { simpl. rewrite api_requests_app. simpl. apply app_nil_r. }
  destruct (lookup_str (scheme uri) (scheme_to_url env)) as [base|];
    [|simpl; repeat split; auto].
  destruct (path uri) as [p|]; [|simpl; repeat split; auto].
  destruct (fetch_token env (history st)) as [token|e];
    [|cbn [fst snd]; repeat split; auto].
  assert (Q : forall x,
             api_requests (history (record (EvRequest x) (record EvToken st)))
             = (api_requests (history st) ++ [x])%list).
  { intros x. simpl. rewrite !api_requests_app. simpl. rewrite app_nil_r. reflexivity. }
  destruct (respond env _ _) as [detail|e]; cbn [fst snd];
    (split; [reflexivity|]); (split; [reflexivity|]);
    (split; [right; eexists; eexists; eexists; eexists;
             split; [reflexivity|]; split; [reflexivity|];
             split; [apply Q|reflexivity]
            |intros e' H; discriminate]).
Qed.

(** ** The answer to a submission *)


